(** * DynamicForm (src/App.js): the validator and the submit handler

    A shallow embedding of the logic of the [DynamicForm] component:
    [validateInput] (lines 40-62), [handleInputChange] (lines 33-38),
    [submit] (lines 22-31) and [handleSubmit] (lines 64-109), followed by
    the properties of the form engine that the specification states.

    Modelling conventions.
    - A JavaScript string is a [string]; one character stands for one
      UTF-16 code unit, so [String.length] is the [.length] property.
    - A JSON number that is an integer is a [Z]; [Number_toString] is its
      decimal rendering, which is what a template literal produces for a
      safe integer ([safe_integer]: magnitude below 2^53). The
      statements about the text of a message assume the bound is one.
    - An object used as a dictionary ([formData], [errors],
      [validationErrors]) is a [gmap string _] of its own properties.
      [handleSubmit] reads [formData] through [get_property], which
      falls back on the members of [Object.prototype], and writes
      [validationErrors] through [set_property], which follows the
      inherited setter of ["__proto__"].
    - A call either completes normally or throws: [completion].
    - The regular expression engine of the platform and the members of
      [Object.prototype] are parameters. *)

From Stdlib Require Import ZArith Ascii String.
From stdpp Require Import base gmap strings list pretty.

Local Open Scope Z_scope.
Local Open Scope string_scope.

(** ** JavaScript values held by the form *)

(** The values that reading [formData[k]] can give: the text of a
    [TextInput], the state of a [CheckBox] (see [renderElement]), or an
    object or function, given by what [validateInput] observes of it,
    its [length] property when that is a number and its ToString.
    [undefined] is [None] of [option Value]. *)
Inductive Value :=
| VStr (s : string)
| VBool (b : bool)
| VObject (length : option Z) (text : string).

(** ToBoolean: [undefined], the empty string and [false] are falsy,
    every object and function is truthy. *)
Definition truthy (v : option Value) : bool :=
  match v with
  | None => false
  | Some (VStr s) => negb (String.eqb s "")
  | Some (VBool b) => b
  | Some (VObject _ _) => true
  end.

(** [v || ""]. *)
Definition or_empty (v : option Value) : Value :=
  match v with
  | Some x => if truthy v then x else VStr ""
  | None => VStr ""
  end.

(** ToString of a stored value, as [RegExp.prototype.test] applies it. *)
Definition ToString (v : Value) : string :=
  match v with
  | VStr s => s
  | VBool true => "true"
  | VBool false => "false"
  | VObject _ text => text
  end.

(** [value.length]: a number on a string, [undefined] on a boolean, the
    property of that name on an object or function. *)
Definition js_length (v : Value) : option Z :=
  match v with
  | VStr s => Some (Z.of_nat (String.length s))
  | VBool _ => None
  | VObject length _ => length
  end.

(** [x <= n] and [x < n] where [x] may be [undefined]: ToNumber(undefined)
    is NaN and every comparison with NaN is false. *)
Definition js_le (x : option Z) (n : Z) : bool :=
  match x with Some k => (k <=? n)%Z | None => false end.

Definition js_lt (x : option Z) (n : Z) : bool :=
  match x with Some k => (k <? n)%Z | None => false end.

(** The integers that a double holds exactly and that JavaScript prints
    in plain decimal: [Number.isSafeInteger]. *)
Definition safe_integer (n : Z) : Prop := (- 2 ^ 53 < n < 2 ^ 53)%Z.

(** [`${n}`] for a safe integer [n]: its decimal digits. Outside that
    range the code prints the nearest double, in exponent notation from
    10^21 on, which this function does not follow. *)
Definition Number_toString (n : Z) : string := pretty n.

(** [obj[k]] on a plain object with own properties [own]: the own
    property if there is one, otherwise the member of that name of
    [Object.prototype] (a function such as [toString], or for
    ["__proto__"] the prototype itself), otherwise [undefined]. *)
Definition get_property (Object_prototype : string -> option Value)
    (own : gmap string Value) (k : string) : option Value :=
  match own !! k with
  | Some v => Some v
  | None => Object_prototype k
  end.

(** [obj[k] = message] on a plain object that holds strings: a new or
    overwritten own property, except for ["__proto__"], where the
    assignment runs the inherited setter, which ignores a string. *)
Definition set_property (k : string) (message : string) (own : gmap string string)
  : gmap string string :=
  if String.eqb k "__proto__" then own else <[k := message]> own.

(** [`${s}`] for a property that may be missing. *)
Definition template (s : option string) : string :=
  match s with Some x => x | None => "undefined" end.

(** The property key [obj[k]] uses when [k] may be [undefined]. *)
Definition property_key (k : option string) : string := template k.

(** ** The blueprint *)

(** One entry of [element.validator]. The [switch] of [validateInput] has
    the cases ["length"] and ["pattern"] and no default: [other_rule] is
    a rule of any other [type]. *)
Inductive Rule :=
| length_rule (operator : string) (value : Z)
| pattern_rule (regexp : string)
| other_rule (type : string).

Record Element := {
  type : string;
  name : option string;
  label : option string;
  required : bool;
  validator : option (list Rule)
}.

Record Column := {
  size : Z;
  elements : list Element
}.

(** [block.type] is ["row"] (with [columns]), ["block"] (with [elements])
    or, for [other_block], a string different from both. *)
Inductive Block :=
| row (columns : list Column)
| block (elements : list Element)
| other_block (type : string).

Record Config := { blueprint : list Block }.

(** ** Completions *)

Inductive completion (A : Type) :=
| Normal (a : A)
| Throw.
Arguments Normal {A} a.
Arguments Throw {A}.

Definition bind {A B} (c : completion A) (k : A -> completion B) : completion B :=
  match c with
  | Normal a => k a
  | Throw => Throw
  end.

Notation "x <- c ;; k" := (bind c (fun x => k))
  (at level 100, c at next level, right associativity).

(** [l.forEach(f)] where [f] updates the variables [s] it closes over. *)
Fixpoint forEach {A S} (f : S -> A -> completion S) (l : list A) (s : S) : completion S :=
  match l with
  | [] => Normal s
  | x :: l' => s' <- f s x ;; forEach f l' s'
  end.

(** ** Component state and effects *)

(** The two [useState] cells of [DynamicForm]. *)
Record State := {
  formData : gmap string Value;
  errors : gmap string string
}.

(** The request body [JSON.stringify(data)], kept as the object it serializes. *)
Inductive Body :=
| JSON_stringify (data : gmap string Value).

(** What the handler does to the outside world, in program order. *)
Inductive Effect :=
| Alert_alert (title message : string)
| fetch (url method : string) (headers : list (string * string)) (body : Body)
| Keyboard_dismiss.

(** How the promise returned by [fetch] settles. It is fulfilled with a
    response whatever the HTTP status of that response (2xx or not), and
    rejected only when no response is obtained (network failure). *)
Inductive FetchOutcome :=
| fulfilled (status : Z)
| rejected.

Definition configUrl : string :=
  "https://9fd21a03-38a1-4e35-9cea-a97bcfc00f4b.mock.pstmn.io/reg".

(** [submit], lines 22-31. *)
Definition submit (data : gmap string Value) : Effect :=
  fetch configUrl "POST"
    [("Accept", "application/json"); ("Content-Type", "application/json")]
    (JSON_stringify data).

(** [handleInputChange], lines 33-38. The computed key of the object
    literal defines an own property, also for the name "__proto__". *)
Definition handleInputChange (st : State) (name : option string) (value : Value) : State :=
  {| formData := <[property_key name := value]> (formData st); errors := errors st |}.

(** [if (error)] on a string or [null]. *)
Definition nonempty (s : string) : bool := negb (String.eqb s "").

Section Engine.

(** [new RegExp(source)]: [None] when the constructor throws a
    [SyntaxError], otherwise the [test] method of the compiled object. *)
Variable RegExp : string -> option (string -> bool).

(** The members of [Object.prototype] by name, as the engine provides
    them. *)
Variable Object_prototype : string -> option Value.

(** The body of the [for ... of] loop of [validateInput], lines 42-58:
    [Normal (Some m)] is [return m], [Normal None] is [break] out of the
    [switch], on to the next rule. *)
Definition check (element : Element) (value : Value) (validator : Rule)
  : completion (option string) :=
  match validator with
  | length_rule operator n =>
      if String.eqb operator "gt" && js_le (js_length value) n then
        Normal (Some ("Value of " +:+ template (label element)
                      +:+ " field must be longer than " +:+ Number_toString n
                      +:+ " characters"))
      else if String.eqb operator "gte" && js_lt (js_length value) n then
        Normal (Some ("Value of " +:+ template (label element)
                      +:+ " field must be at least " +:+ Number_toString n
                      +:+ " characters long"))
      else Normal None
  | pattern_rule regexp =>
      match RegExp regexp with
      | None => Throw
      | Some regex =>
          if negb (regex (ToString value)) then
            Normal (Some ("Invalid format for " +:+ template (label element) +:+ " field"))
          else Normal None
      end
  | other_rule _ => Normal None
  end.

Fixpoint validators (element : Element) (value : Value) (rules : list Rule)
  : completion (option string) :=
  match rules with
  | [] => Normal None
  | validator :: rest =>
      r <- check element value validator ;;
      match r with
      | Some message => Normal (Some message)
      | None => validators element value rest
      end
  end.

(** [validateInput], lines 40-62. Iterating over a missing [validator]
    throws a [TypeError]. *)
Definition validateInput (element : Element) (value : Value) : completion (option string) :=
  match validator element with
  | Some rules => validators element value rules
  | None => Throw
  end.

(** The argument [handleSubmit] gives to [validateInput], lines 73-76:
    [formData[element.name] || ""]. *)
Definition validated_value (st : State) (element : Element) : Value :=
  or_empty (get_property Object_prototype (formData st) (property_key (name element))).

(** The callback of the innermost [forEach], lines 71-86, on the pair of
    local variables [(validationErrors, hasErrors)]. *)
Definition visit (st : State) (acc : gmap string string * bool) (element : Element)
  : completion (gmap string string * bool) :=
  let key := property_key (name element) in
  acc1 <- match validator element with
          | Some _ =>
              error <- validateInput element (validated_value st element) ;;
              Normal (match error with
                      | Some message =>
                          if nonempty message then (set_property key message acc.1, true)
                          else acc
                      | None => acc
                      end)
          | None => Normal acc
          end ;;
  Normal (if required element
             && negb (truthy (get_property Object_prototype (formData st) key))
          then (set_property key (template (label element) +:+ " is required") acc1.1, true)
          else acc1).

(** Lines 70-87. *)
Definition visit_column (st : State) (acc : gmap string string * bool) (column : Column)
  : completion (gmap string string * bool) :=
  forEach (visit st) (elements column) acc.

(** Lines 68-89: only blocks of type ["row"] are entered. *)
Definition visit_block (st : State) (acc : gmap string string * bool) (b : Block)
  : completion (gmap string string * bool) :=
  match b with
  | row columns => forEach (visit_column st) columns acc
  | block _ => Normal acc
  | other_block _ => Normal acc
  end.

(** Lines 65-89: the final [(validationErrors, hasErrors)]. *)
Definition validation (config : Config) (st : State) : completion (gmap string string * bool) :=
  forEach (visit_block st) (blueprint config) (∅, false).

(** [handleSubmit], lines 64-109, run to the end on the state [st], the
    [fetch] promise settling as [net]. [Throw]: the traversal threw, the
    handler's promise is rejected with nothing done. *)
Definition handleSubmit (config : Config) (st : State) (net : FetchOutcome)
  : completion (State * list Effect) :=
  r <- validation config st ;;
  let validationErrors := r.1 in
  let hasErrors := r.2 in
  if hasErrors then
    Normal ({| formData := formData st; errors := validationErrors |},
            [Alert_alert "Validation Error" "Please correct the errors in the form"])
  else
    match net with
    | fulfilled _ =>
        Normal ({| formData := ∅; errors := ∅ |},
                [submit (formData st);
                 Alert_alert "Success" "Form submitted successfully";
                 Keyboard_dismiss])
    | rejected =>
        Normal ({| formData := formData st; errors := ∅ |},
                [submit (formData st);
                 Alert_alert "Error" "An error occurred while submitting the form"])
    end.

End Engine.

(** ** Views of a blueprint used to state the properties *)

(** The elements the nested [forEach] of [handleSubmit] reaches, in order. *)
Definition row_elements (b : Block) : list Element :=
  match b with
  | row columns => flat_map elements columns
  | block _ => []
  | other_block _ => []
  end.

Definition traversed (config : Config) : list Element :=
  flat_map row_elements (blueprint config).

(** The key under which an element's value and error are stored. *)
Definition key_of (element : Element) : string := property_key (name element).

(** [formData[element.name]] as [handleSubmit] reads it. *)
Definition current (Object_prototype : string -> option Value) (st : State)
    (element : Element) : option Value :=
  get_property Object_prototype (formData st) (key_of element).

(** The message of the [required] check, line 83. *)
Definition required_message (element : Element) : string :=
  template (label element) +:+ " is required".

(** [hasErrors] is set whenever [validationErrors] has an entry. *)
Definition consistent (acc : gmap string string * bool) : Prop :=
  acc.1 ≠ ∅ -> acc.2 = true.

Definition is_block (b : Block) : bool :=
  match b with block _ => true | _ => false end.

(** The configuration with its ["block"] containers taken out. *)
Definition without_blocks (config : Config) : Config :=
  {| blueprint := List.filter (fun b => negb (is_block b)) (blueprint config) |}.

(** An element that declares [required] or a [validator]. *)
Definition constrained (element : Element) : bool :=
  required element || bool_decide (is_Some (validator element)).

Definition constrained_column (column : Column) : Column :=
  {| size := size column; elements := List.filter constrained (elements column) |}.

Definition constrained_block (b : Block) : Block :=
  match b with
  | row columns => row (map constrained_column columns)
  | _ => b
  end.

(** The configuration restricted to its constrained elements. *)
Definition constrained_only (config : Config) : Config :=
  {| blueprint := map constrained_block (blueprint config) |}.

(** The element with another kind. *)
Definition with_type (t : string) (element : Element) : Element :=
  {| type := t; name := name element; label := label element;
     required := required element; validator := validator element |}.

Definition retyped_column (kind : Element -> string) (column : Column) : Column :=
  {| size := size column;
     elements := map (fun e => with_type (kind e) e) (elements column) |}.

Definition retyped_block (kind : Element -> string) (b : Block) : Block :=
  match b with
  | row columns => row (map (retyped_column kind) columns)
  | _ => b
  end.

(** The configuration with the kind of every row element replaced by [kind]. *)
Definition retyped (kind : Element -> string) (config : Config) : Config :=
  {| blueprint := map (retyped_block kind) (blueprint config) |}.

(** Every [regexp] of the element's rules is accepted by the engine. *)
Definition patterns_compile (RegExp : string -> option (string
    -> bool)) (element : Element) : bool :=
  match validator element with
  | Some rules =>
      forallb (fun r => match r with
                        | pattern_rule regexp => bool_decide (is_Some (RegExp regexp))
                        | _ => true
                        end) rules
  | None => true
  end.

Definition is_fetch (e : Effect) : bool :=
  match e with fetch _ _ _ _ => true | _ => false end.

(** The network requests among the effects of a run. *)
Definition requests (l : list Effect) : list Effect := List.filter is_fetch l.

(** ** An engine for literal patterns, and sample forms *)

Definition metacharacter (c : ascii) : bool :=
  bool_decide (c ∈ list_ascii_of_string "\^$.*+?()[]{}|").

Fixpoint literal (pattern : string) : bool :=
  match pattern with
  | EmptyString => true
  | String c rest => negb (metacharacter c) && literal rest
  end.

Fixpoint occurs (pattern subject : string) : bool :=
  String.prefix pattern subject
  || match subject with
     | EmptyString => false
     | String _ rest => occurs pattern rest
     end.

(** A pattern without metacharacters matches the subjects it occurs in.
    This engine covers that fragment only and refuses every other
    pattern; the sample forms stay inside the fragment. *)
Definition literal_RegExp (source : string) : option (string -> bool) :=
  if literal source then Some (occurs source) else None.

(** The members of [Object.prototype] of ECMAScript, each with its
    [length] and with the text that Hermes and V8 print for it; for the
    sample forms. *)
Definition standard_prototype (k : string) : option Value :=
  let native (n : Z) := Some (VObject (Some n) ("function " +:+ k +:+ "() { [native code] }")) in
  if String.eqb k "__proto__" then Some (VObject None "[object Object]")
  else if String.eqb k "constructor" then
    Some (VObject (Some 1) "function Object() { [native code] }")
  else if bool_decide (k ∈ ["toString"; "toLocaleString"; "valueOf"]) then native 0
  else if bool_decide (k ∈ ["hasOwnProperty"; "isPrototypeOf"; "propertyIsEnumerable";
                            "__lookupGetter__"; "__lookupSetter__"]) then native 1
  else if bool_decide (k ∈ ["__defineGetter__"; "__defineSetter__"]) then native 2
  else None.

Definition email : Element :=
  {| type := "input"; name := Some "email"; label := Some "Email";
     required := true; validator := None |}.

Definition bio : Element :=
  {| type := "input"; name := Some "bio"; label := Some "Bio";
     required := false; validator := Some [length_rule "gte" 10] |}.

Definition nick : Element :=
  {| type := "input"; name := Some "nick"; label := Some "Nick";
     required := false; validator := Some [length_rule "gt" 3] |}.

Definition contact : Element :=
  {| type := "input"; name := Some "contact"; label := Some "Contact";
     required := true;
     validator := Some [length_rule "gt" 2; pattern_rule "@"; length_rule "gte" 10] |}.


Definition title : Element :=
  {| type := "heading"; name := None; label := None;
     required := true; validator := None |}.

Definition send : Element :=
  {| type := "submit"; name := None; label := Some "Send";
     required := false; validator := None |}.


Definition form_of (l : list Element) : Config :=
  {| blueprint := [row [ {| size := 1; elements := l |} ]] |}.

Definition mounted (data : gmap string Value) : State :=
  {| formData := data; errors := ∅ |}.

(** * Properties *)

Example pretty_10 : Number_toString 10 = "10" /\ Number_toString (-5) = "-5" /\ Number_toString 0 = "0".
Proof. repeat split; reflexivity. Qed.

(** ** Loops *)

Section Loops.
Context {A S : Type}.
Implicit Types (f g : S -> A -> completion S) (l : list A) (s : S).

Lemma forEach_app f l1 l2 s :
  forEach f (l1 ++ l2) s = (s' <- forEach f l1 s ;; forEach f l2 s').
Proof.
  revert s. induction l1 as [|x l1 IH]; intros s; simpl; [reflexivity|].
  destruct (f s x) as [s1|]; simpl; [apply IH | reflexivity].
Qed.

Lemma forEach_ext f g l s :
  (forall s x, f s x = g s x) -> forEach f l s = forEach g l s.
Proof.
  intros E. revert s. induction l as [|x l IH]; intros s; simpl; [reflexivity|].
  rewrite E. destruct (g s x) as [s1|]; simpl; [apply IH | reflexivity].
Qed.

Lemma forEach_invariant (P : S -> Prop) f :
  (forall s x s', P s -> f s x = Normal s' -> P s') ->
  forall l s s', P s -> forEach f l s = Normal s' -> P s'.
Proof.
  intros step. induction l as [|x l IH]; intros s s' Hs; simpl.
  - intros [= <-]. exact Hs.
  - destruct (f s x) as [s1|] eqn:E; simpl; [|discriminate].
    apply IH. exact (step _ _ _ Hs E).
Qed.

Lemma forEach_total (Q : A -> Prop) f :
  (forall s x, Q x -> exists s', f s x = Normal s') ->
  forall l s, Forall Q l -> exists s', forEach f l s = Normal s'.
Proof.
  intros step. induction l as [|x l IH]; intros s HQ; simpl.
  - eexists. reflexivity.
  - apply Forall_cons in HQ as [Hx Hl].
    destruct (step s x Hx) as [s1 ->]. simpl. apply IH, Hl.
Qed.

Lemma forEach_skip (keep : A -> bool) f l s :
  (forall s x, keep x = false -> f s x = Normal s) ->
  forEach f (List.filter keep l) s = forEach f l s.
Proof.
  intros skip. revert s. induction l as [|x l IH]; intros s; simpl; [reflexivity|].
  destruct (keep x) eqn:K; simpl.
  - destruct (f s x) as [s1|]; simpl; [apply IH | reflexivity].
  - rewrite (skip s x K). simpl. apply IH.
Qed.

End Loops.

Lemma forEach_flat_map {A B S} (inner : B -> list A) (f : S -> A -> completion S)
    (l : list B) (s : S) :
  forEach (fun s b => forEach f (inner b) s) l s = forEach f (flat_map inner l) s.
Proof.
  revert s. induction l as [|b l IH]; intros s; simpl; [reflexivity|].
  rewrite forEach_app. destruct (forEach f (inner b) s) as [s1|]; simpl; [apply IH | reflexivity].
Qed.

(** ** The form state store *)

(** [handleInputChange] replaces the value stored for [name] and leaves
    every other entry, and the errors, as they are. *)
Lemma handleInputChange_lookup (st : State) (name : option string) (value : Value) (k : string) :
  formData (handleInputChange st name value) !! k =
    (if String.eqb (property_key name) k then Some value else formData st !! k)
  /\ errors (handleInputChange st name value) = errors st.
Proof.
  split; [|reflexivity]. simpl.
  destruct (String.eqb_spec (property_key name) k) as [->|Hk].
  - apply lookup_insert_eq.
  - apply lookup_insert_ne, Hk.
Qed.

(** ** The validator *)

Section Validator.
Variable RegExp : string -> option (string -> bool).
Variable Object_prototype : string -> option Value.

(** What a ["gt"] rule does on any value. *)
Lemma check_gt element value n :
  check RegExp element value (length_rule "gt" n) =
  Normal (if js_le (js_length value) n
          then Some ("Value of " +:+ template (label element)
                     +:+ " field must be longer than " +:+ Number_toString n
                     +:+ " characters")
          else None).
Proof.
  unfold check. change (String.eqb "gt" "gt") with true.
  change (String.eqb "gt" "gte") with false.
  destruct (js_le (js_length value) n); reflexivity.
Qed.

(** What a ["gte"] rule does on any value. *)
Lemma check_gte element value n :
  check RegExp element value (length_rule "gte" n) =
  Normal (if js_lt (js_length value) n
          then Some ("Value of " +:+ template (label element)
                     +:+ " field must be at least " +:+ Number_toString n
                     +:+ " characters long")
          else None).
Proof.
  unfold check. change (String.eqb "gte" "gt") with false.
  change (String.eqb "gte" "gte") with true.
  destruct (js_lt (js_length value) n); reflexivity.
Qed.

(** A rule never returns the empty string, so [if (error)] in
    [handleSubmit] tests for [null] only. *)
Lemma check_message_nonempty element value rule message :
  check RegExp element value rule = Normal (Some message) -> nonempty message = true.
Proof.
  destruct rule as [operator n|regexp|t]; simpl.
  - destruct (_ && _); [intros [= <-]; reflexivity|].
    destruct (_ && _); [intros [= <-]; reflexivity | discriminate].
  - destruct (RegExp regexp) as [regex|]; [|discriminate].
    destruct (negb _); [intros [= <-]; reflexivity | discriminate].
  - discriminate.
Qed.

Lemma validators_message_nonempty element value rules message :
  validators RegExp element value rules = Normal (Some message) -> nonempty message = true.
Proof.
  induction rules as [|rule rules IH]; simpl; [discriminate|].
  destruct (check RegExp element value rule) as [[m|]|] eqn:E; simpl.
  - intros [= <-]. exact (check_message_nonempty _ _ _ _ E).
  - exact IH.
  - discriminate.
Qed.

Lemma validateInput_message_nonempty element value message :
  validateInput RegExp element value = Normal (Some message) -> nonempty message = true.
Proof.
  unfold validateInput. destruct (validator element) as [rules|]; [|discriminate].
  apply validators_message_nonempty.
Qed.

(** The loop stops at the first rule that returns a message. *)
Lemma validators_first element value before rule after message :
  Forall (fun r => check RegExp element value r = Normal None) before ->
  check RegExp element value rule = Normal (Some message) ->
  validators RegExp element value (before ++ rule :: after) = Normal (Some message).
Proof.
  intros Hbefore Hrule. induction Hbefore as [|r before Hr _ IH]; simpl.
  - rewrite Hrule. reflexivity.
  - rewrite Hr. simpl. exact IH.
Qed.

(** Past rules that pass, the loop is at the next rule. *)
Lemma validators_at element value before rule after :
  Forall (fun r => check RegExp element value r = Normal None) before ->
  validators RegExp element value (before ++ rule :: after) =
  (r <- check RegExp element value rule ;;
   match r with
   | Some message => Normal (Some message)
   | None => validators RegExp element value after
   end).
Proof.
  intros Hbefore. induction Hbefore as [|r before Hr _ IH]; simpl; [reflexivity|].
  rewrite Hr. simpl. exact IH.
Qed.

(** Conversely, a returned message is that of the first rule that fails. *)
Lemma validators_origin element value rules message :
  validators RegExp element value rules = Normal (Some message) ->
  exists before rule after,
    rules = (before ++ rule :: after)%list
    /\ Forall (fun r => check RegExp element value r = Normal None) before
    /\ check RegExp element value rule = Normal (Some message).
Proof.
  induction rules as [|r rules IH]; simpl; [discriminate|].
  destruct (check RegExp element value r) as [[m|]|] eqn:E; simpl.
  - intros [= <-]. exists [], r, rules. repeat split; [constructor | exact E].
  - intros H. destruct (IH H) as (before & rule & after & -> & Hbefore & Hrule).
    exists (r :: before), rule, after. repeat split; [constructor; assumption | exact Hrule].
  - discriminate.
Qed.

(** With every pattern accepted by the engine the loop cannot throw. *)
Lemma validators_total element value rules :
  forallb (fun r => match r with
                    | pattern_rule regexp => bool_decide (is_Some (RegExp regexp))
                    | _ => true
                    end) rules = true ->
  exists r, validators RegExp element value rules = Normal r.
Proof.
  induction rules as [|rule rules IH]; simpl; intros H.
  - eexists. reflexivity.
  - apply andb_prop in H as [Hrule Hrules].
    assert (exists r, check RegExp element value rule = Normal r) as [r ->].
    { destruct rule as [operator n|regexp|t]; simpl.
      - destruct (_ && _); [eexists; reflexivity|].
        destruct (_ && _); eexists; reflexivity.
      - apply bool_decide_eq_true in Hrule as [regex ->].
        destruct (negb _); eexists; reflexivity.
      - eexists. reflexivity. }
    simpl. destruct r as [m|]; [eexists; reflexivity | exact (IH Hrules)].
Qed.

End Validator.

(** ** The traversal *)

Lemma lookup_set_property (k message : string) (own : gmap string string) (k' : string) :
  set_property k message own !! k' =
    if String.eqb k "__proto__" then own !! k'
    else if String.eqb k k' then Some message
    else own !! k'.
Proof.
  unfold set_property. destruct (String.eqb k "__proto__"); [reflexivity|].
  destruct (String.eqb_spec k k') as [->|Hk].
  - apply lookup_insert_eq.
  - apply lookup_insert_ne, Hk.
Qed.

Lemma lookup_set_property_ne (k message : string) (own : gmap string string) (k' : string) :
  k <> k' -> set_property k message own !! k' = own !! k'.
Proof.
  intros Hk. rewrite lookup_set_property.
  destruct (String.eqb k "__proto__"); [reflexivity|].
  destruct (String.eqb_spec k k'); [contradiction | reflexivity].
Qed.

Lemma lookup_set_property_eq (k message : string) (own : gmap string string) :
  k <> "__proto__" -> set_property k message own !! k = Some message.
Proof.
  intros Hk. rewrite lookup_set_property.
  destruct (String.eqb_spec k "__proto__"); [contradiction|].
  rewrite String.eqb_refl. reflexivity.
Qed.

Lemma set_property_twice (k m1 m2 : string) (own : gmap string string) :
  set_property k m2 (set_property k m1 own) = set_property k m2 own.
Proof.
  unfold set_property. destruct (String.eqb k "__proto__"); [reflexivity|].
  apply insert_insert_eq.
Qed.

Section Traversal.
Variable RegExp : string -> option (string -> bool).
Variable Object_prototype : string -> option Value.

(** Splits a call of [visit] into the outcomes of its validator step. *)
Ltac visit_cases st element :=
  unfold visit;
  destruct (validator element) as [rules|] eqn:Hrules;
  [ destruct (validateInput RegExp element (validated_value Object_prototype st element))
      as [[message|]|] eqn:Herror; simpl;
    [ rewrite (validateInput_message_nonempty _ _ _ _ Herror) | | ]
  | simpl ];
  try destruct (required element
                && negb (truthy (get_property Object_prototype (formData st)
                                   (property_key (name element)))))
    eqn:Hrequired.

Lemma visit_consistent st acc element acc' :
  consistent acc -> visit RegExp Object_prototype st acc element = Normal acc' -> consistent acc'.
Proof.
  unfold consistent. intros Hacc.
  visit_cases st element; intros [= <-]; simpl;
    solve [ exact Hacc | intros _; reflexivity ].
Qed.

Lemma visit_total st acc element :
  patterns_compile RegExp element = true ->
  exists acc', visit RegExp Object_prototype st acc element = Normal acc'.
Proof.
  unfold patterns_compile. intros H.
  visit_cases st element; try (eexists; reflexivity).
  all: exfalso; unfold validateInput in Herror; rewrite Hrules in Herror.
  all: destruct (validators_total RegExp element
                   (validated_value Object_prototype st element) rules H) as [r Hr].
  all: congruence.
Qed.

(** The [required] check writes last and sets [hasErrors]; the write
    lands unless the key is ["__proto__"]. *)
Lemma visit_required st acc element acc' :
  required element = true ->
  truthy (current Object_prototype st element) = false ->
  visit RegExp Object_prototype st acc element = Normal acc' ->
  acc'.2 = true
  /\ (key_of element <> "__proto__" ->
      acc'.1 !! key_of element = Some (required_message element)).
Proof.
  unfold current, key_of, required_message. intros Hreq Hfalsy.
  unfold visit. rewrite Hreq, Hfalsy. simpl.
  destruct (match validator element with Some _ => _ | None => _ end) as [acc1|];
    simpl; [|discriminate].
  intros [= <-]. simpl. split; [reflexivity|].
  intros Hk. apply lookup_set_property_eq, Hk.
Qed.

(** Visiting an element touches no key but its own. *)
Lemma visit_other_key st acc element acc' k :
  key_of element <> k ->
  visit RegExp Object_prototype st acc element = Normal acc' ->
  acc'.1 !! k = acc.1 !! k.
Proof.
  unfold key_of. intros Hk.
  visit_cases st element; intros [= <-]; simpl;
    rewrite ?lookup_set_property_ne by exact Hk; reflexivity.
Qed.

(** [hasErrors] is never reset. *)
Lemma visit_keeps_flag st acc element acc' :
  acc.2 = true -> visit RegExp Object_prototype st acc element = Normal acc' -> acc'.2 = true.
Proof.
  intros Hflag. visit_cases st element; intros [= <-]; simpl; auto.
Qed.

(** An element with neither [required] nor [validator] is passed over. *)
Lemma visit_unconstrained st acc element :
  constrained element = false -> visit RegExp Object_prototype st acc element = Normal acc.
Proof.
  unfold constrained. intros H. apply orb_false_elim in H as [Hreq Hval].
  apply bool_decide_eq_false in Hval.
  unfold visit. rewrite Hreq.
  destruct (validator element) as [rules|]; [|reflexivity].
  exfalso. apply Hval. eexists. reflexivity.
Qed.

Lemma visit_block_row_elements st acc b :
  visit_block RegExp Object_prototype st acc b =
  forEach (visit RegExp Object_prototype st) (row_elements b) acc.
Proof.
  destruct b as [columns|elems|t]; simpl; try reflexivity.
  unfold visit_column. apply (forEach_flat_map elements).
Qed.

(** The nested loops visit the elements of the rows, in document order. *)
Lemma validation_traversed config st :
  validation RegExp Object_prototype config st =
  forEach (visit RegExp Object_prototype st) (traversed config) (∅, false).
Proof.
  unfold validation, traversed.
  rewrite <- (forEach_flat_map row_elements).
  apply forEach_ext. intros s b. apply visit_block_row_elements.
Qed.


(** An entry in [validationErrors] means [hasErrors] is set. *)
Lemma validation_consistent config st errs flag :
  validation RegExp Object_prototype config st = Normal (errs, flag) ->
  errs ≠ ∅ -> flag = true.
Proof.
  rewrite validation_traversed. intros H.
  apply (forEach_invariant consistent (visit RegExp Object_prototype st)
           (fun s x s' => visit_consistent st s x s') _ _ _) in H; [exact H|].
  unfold consistent. simpl. intros E. destruct E. reflexivity.
Qed.

End Traversal.

(** ** The validator engine: length rules and rule order *)

Section ValidatorClaims.
Variable RegExp : string -> option (string -> bool).
Variable Object_prototype : string -> option Value.

(** C1, as amended. Let an element carry a length rule with operator
    ["gte"] and a safe integer bound [N], and let [v] be a string on
    which the rules before that rule pass. Then the rule returns a
    message exactly when the length of [v] is below [N] (none at length
    [N] or more), the message is "Value of <label> field must be at
    least <N> characters long", and [validateInput] returns that message
    in the first case and goes on to the rules after it in the second. *)
Theorem length_gte_rule (element : Element) (before after : list Rule) (N : Z) (v : string) :
  safe_integer N ->
  validator element = Some (before ++ length_rule "gte" N :: after)%list ->
  Forall (fun r => check RegExp element (VStr v) r = Normal None) before ->
  check RegExp element (VStr v) (length_rule "gte" N) =
    Normal (if (Z.of_nat (String.length v) <? N)%Z
            then Some ("Value of " +:+ template (label element)
                       +:+ " field must be at least " +:+ Number_toString N
                       +:+ " characters long")
            else None)
  /\ validateInput RegExp element (VStr v) =
     if (Z.of_nat (String.length v) <? N)%Z
     then Normal (Some ("Value of " +:+ template (label element)
                        +:+ " field must be at least " +:+ Number_toString N
                        +:+ " characters long"))
     else validators RegExp element (VStr v) after.
Proof.
  intros _ Hrules Hbefore. split; [apply check_gte|].
  unfold validateInput. rewrite Hrules, (validators_at _ _ _ _ _ _ Hbefore), check_gte.
  cbn [js_length js_lt bind].
  destruct (Z.of_nat (String.length v) <? N)%Z; reflexivity.
Qed.

(** C2, as amended. Let an element carry a length rule with operator
    ["gt"] and a safe integer bound [N], and let [v] be a string on which
    the rules before that rule pass. Then the rule returns a message
    exactly when the length of [v] is at most [N] (none at length [N + 1]
    or more), the message is "Value of <label> field must be longer than
    <N> characters", and [validateInput] returns that message in the
    first case and goes on to the rules after it in the second. *)
Theorem length_gt_rule (element : Element) (before after : list Rule) (N : Z) (v : string) :
  safe_integer N ->
  validator element = Some (before ++ length_rule "gt" N :: after)%list ->
  Forall (fun r => check RegExp element (VStr v) r = Normal None) before ->
  check RegExp element (VStr v) (length_rule "gt" N) =
    Normal (if (Z.of_nat (String.length v) <=? N)%Z
            then Some ("Value of " +:+ template (label element)
                       +:+ " field must be longer than " +:+ Number_toString N
                       +:+ " characters")
            else None)
  /\ validateInput RegExp element (VStr v) =
     if (Z.of_nat (String.length v) <=? N)%Z
     then Normal (Some ("Value of " +:+ template (label element)
                        +:+ " field must be longer than " +:+ Number_toString N
                        +:+ " characters"))
     else validators RegExp element (VStr v) after.
Proof.
  intros _ Hrules Hbefore. split; [apply check_gt|].
  unfold validateInput. rewrite Hrules, (validators_at _ _ _ _ _ _ Hbefore), check_gt.
  cbn [js_length js_le bind].
  destruct (Z.of_nat (String.length v) <=? N)%Z; reflexivity.
Qed.

(** C9. [validateInput] evaluates the rules in declaration order and
    returns at the first one that fails: when the rules before [rule] all
    pass on [value] and [rule] fails with [message], the result is exactly
    [message], whatever the rules after it would say. *)
Theorem validateInput_first_failure (element : Element) (value : Value)
    (before : list Rule) (rule : Rule) (after : list Rule) (message : string) :
  validator element = Some (before ++ rule :: after)%list ->
  Forall (fun r => check RegExp element value r = Normal None) before ->
  check RegExp element value rule = Normal (Some message) ->
  validateInput RegExp element value = Normal (Some message).
Proof.
  intros Hrules Hbefore Hrule. unfold validateInput. rewrite Hrules.
  apply validators_first; assumption.
Qed.

End ValidatorClaims.

(** ** The traversal: which elements are validated, and with what value *)

Lemma row_elements_constrained (b : Block) :
  row_elements (constrained_block b) = List.filter constrained (row_elements b).
Proof.
  destruct b as [columns|elems|t]; simpl; try reflexivity.
  induction columns as [|c columns IH]; simpl; [reflexivity|].
  rewrite List.filter_app, IH. reflexivity.
Qed.

Lemma traversed_constrained_only (config : Config) :
  traversed (constrained_only config) = List.filter constrained (traversed config).
Proof.
  unfold traversed, constrained_only. simpl.
  induction (blueprint config) as [|b bs IH]; simpl; [reflexivity|].
  rewrite List.filter_app, IH, row_elements_constrained. reflexivity.
Qed.

Lemma traversed_retyped (kind : Element -> string) (config : Config) :
  traversed (retyped kind config) = map (fun e => with_type (kind e) e) (traversed config).
Proof.
  unfold traversed, retyped. simpl.
  induction (blueprint config) as [|b bs IH]; simpl; [reflexivity|].
  rewrite map_app, <- IH. f_equal.
  destruct b as [columns|elems|t]; simpl; try reflexivity.
  induction columns as [|c columns IHc]; simpl; [reflexivity|].
  rewrite map_app, IHc. reflexivity.
Qed.

Lemma check_with_type RegExp t element value rule :
  check RegExp (with_type t element) value rule = check RegExp element value rule.
Proof. destruct rule; reflexivity. Qed.

Lemma validators_with_type RegExp t element value rules :
  validators RegExp (with_type t element) value rules = validators RegExp element value rules.
Proof.
  induction rules as [|rule rules IH]; simpl; [reflexivity|].
  rewrite check_with_type, IH. reflexivity.
Qed.

(** [visit] reads the name, the label, [required] and the validator of
    an element, not its kind. *)
Lemma visit_with_type RegExp Object_prototype st acc t element :
  visit RegExp Object_prototype st acc (with_type t element)
  = visit RegExp Object_prototype st acc element.
Proof.
  unfold visit, validated_value, validateInput. cbn [with_type validator name required label].
  destruct (validator element) as [rules|]; [|reflexivity].
  rewrite validators_with_type. reflexivity.
Qed.

Section TraversalClaims.
Variable RegExp : string -> option (string -> bool).
Variable Object_prototype : string -> option Value.

(** C4. Elements held by ["block"] containers take no part in validation
    or submission: the traversal, and with it the whole submit handler,
    gives the same result on a configuration and on that configuration
    with its ["block"] containers removed, whatever those containers
    hold. *)
Theorem blocks_not_traversed (config : Config) (st : State) (net : FetchOutcome) :
  validation RegExp Object_prototype config st
    = validation RegExp Object_prototype (without_blocks config) st
  /\ handleSubmit RegExp Object_prototype config st net
     = handleSubmit RegExp Object_prototype (without_blocks config) st net.
Proof.
  assert (validation RegExp Object_prototype config st
          = validation RegExp Object_prototype (without_blocks config) st) as E.
  { unfold validation, without_blocks. simpl. symmetry.
    apply forEach_skip. intros acc b Hb.
    destruct b; simpl in Hb; [discriminate | reflexivity | discriminate]. }
  split; [exact E|]. unfold handleSubmit. rewrite E. reflexivity.
Qed.

(** C10, as amended. The traversal visits every element of every row and
    does not look at the kind of an element: (1) an element of any kind
    (heading, paragraph and submit included) that declares neither
    [required] nor a [validator] adds no entry to the errors and cannot
    block submission, the traversal and the submit handler giving the
    same result with all such elements removed; (2) an element that
    declares one of them is checked whatever its kind, the traversal and
    the submit handler giving the same result when the kinds of the
    elements are replaced by any others. *)
Theorem unconstrained_elements_skipped (config : Config) (st : State) (net : FetchOutcome)
    (kind : Element -> string) :
  (validation RegExp Object_prototype config st
     = validation RegExp Object_prototype (constrained_only config) st
   /\ handleSubmit RegExp Object_prototype config st net
      = handleSubmit RegExp Object_prototype (constrained_only config) st net)
  /\ (validation RegExp Object_prototype (retyped kind config) st
        = validation RegExp Object_prototype config st
      /\ handleSubmit RegExp Object_prototype (retyped kind config) st net
         = handleSubmit RegExp Object_prototype config st net).
Proof.
  assert (validation RegExp Object_prototype config st
          = validation RegExp Object_prototype (constrained_only config) st) as E.
  { rewrite !validation_traversed, traversed_constrained_only. symmetry.
    apply forEach_skip. intros acc element. apply visit_unconstrained. }
  assert (validation RegExp Object_prototype (retyped kind config) st
          = validation RegExp Object_prototype config st) as E'.
  { rewrite !validation_traversed, traversed_retyped.
    generalize (traversed config) (∅ : gmap string string, false).
    intros l. induction l as [|element l IH]; intros acc; simpl; [reflexivity|].
    rewrite (visit_with_type RegExp Object_prototype).
    destruct (visit RegExp Object_prototype st acc element); simpl; [apply IH | reflexivity]. }
  split; (split; [assumption|]); unfold handleSubmit; [rewrite E | rewrite E']; reflexivity.
Qed.



End TraversalClaims.

(** ** The submit handler *)

Section SubmitClaims.
Variable RegExp : string -> option (string -> bool).
Variable Object_prototype : string -> option Value.

(** C7. When the traversal ends with a non-empty [validationErrors], the
    handler completes normally (nothing is thrown), publishes exactly
    those errors, shows the "Validation Error" alert and does nothing
    else: no request is sent and [formData] is what it was. *)
Theorem validation_failed (config : Config) (st : State) (net : FetchOutcome)
    (errs : gmap string string) (flag : bool) :
  validation RegExp Object_prototype config st = Normal (errs, flag) ->
  errs ≠ ∅ ->
  handleSubmit RegExp Object_prototype config st net =
    Normal ({| formData := formData st; errors := errs |},
            [Alert_alert "Validation Error" "Please correct the errors in the form"]).
Proof.
  intros Hval Hne.
  apply (validation_consistent RegExp Object_prototype config st errs flag Hval) in Hne.
  subst flag.
  unfold handleSubmit. rewrite Hval. reflexivity.
Qed.


(** The failure that the code handles: when validation passes and the
    promise of [fetch] is rejected, the handler shows the "Error" alert,
    [formData] is what it was when the POST was issued and [errors] is
    the empty map set just before the POST. *)
Lemma rejected_post_keeps_form (config : Config) (st : State) (errs : gmap string string) :
  validation RegExp Object_prototype config st = Normal (errs, false) ->
  handleSubmit RegExp Object_prototype config st rejected =
    Normal ({| formData := formData st; errors := ∅ |},
            [submit (formData st);
             Alert_alert "Error" "An error occurred while submitting the form"]).
Proof.
  intros Hval. unfold handleSubmit. rewrite Hval. reflexivity.
Qed.

End SubmitClaims.

(** ** The claims on the sample forms *)

(** The form data of the scenarios. *)
Lemma singleton_form_nonempty (k v : string) : ({[k := v]} : gmap string string) ≠ ∅.
Proof.
  intros E. apply (f_equal (fun m => m !! k)) in E.
  rewrite lookup_singleton_eq, lookup_empty in E. discriminate.
Qed.

(** C1: the message the code returns for label "Bio" and bound 10 is not
    the one the claim gives; it starts with "Value of". *)
Lemma gte_message_differs :
  validateInput literal_RegExp bio (VStr "short") =
    Normal (Some "Value of Bio field must be at least 10 characters long")
  /\ validateInput literal_RegExp bio (VStr "short") <>
    Normal (Some "Bio field must be at least 10 characters long").
Proof. split; [reflexivity | vm_compute; discriminate]. Qed.

(** C2: the message the code returns for label "Nick" and bound 3 is not
    the one the claim gives; it starts with "Value of". *)
Lemma gt_message_differs :
  validateInput literal_RegExp nick (VStr "abc") =
    Normal (Some "Value of Nick field must be longer than 3 characters")
  /\ validateInput literal_RegExp nick (VStr "abc") <>
    Normal (Some "Nick field must be longer than 3 characters").
Proof. split; [reflexivity | vm_compute; discriminate]. Qed.

(** C3, the code at the failing input: a POST answered with status 500
    fulfils the promise of [fetch]; the handler, which never looks at the
    response, then reports success and clears the form data. *)
Lemma server_error_clears_form :
  formData (mounted {["email" := VStr "a@b.com"]}) <> ∅
  /\ handleSubmit literal_RegExp standard_prototype (form_of [email])
       (mounted {["email" := VStr "a@b.com"]}) (fulfilled 500) =
     Normal ({| formData := ∅; errors := ∅ |},
             [submit {["email" := VStr "a@b.com"]};
              Alert_alert "Success" "Form submitted successfully";
              Keyboard_dismiss]).
Proof.
  split; [|reflexivity].
  intros E. apply (f_equal (fun m => m !! "email")) in E. vm_compute in E. discriminate.
Qed.


(** C10: a heading that declares [required] is validated like any other
    element: it adds an entry to the errors and blocks the submission
    that goes through without it. *)
Lemma required_heading_blocks_submit :
  type title = "heading"
  /\ handleSubmit literal_RegExp standard_prototype (form_of [title]) (mounted ∅) (fulfilled 200) =
     Normal ({| formData := ∅; errors := {["undefined" := "undefined is required"]} |},
             [Alert_alert "Validation Error" "Please correct the errors in the form"])
  /\ handleSubmit literal_RegExp standard_prototype (form_of []) (mounted ∅) (fulfilled 200) =
     Normal ({| formData := ∅; errors := ∅ |},
             [submit ∅; Alert_alert "Success" "Form submitted successfully"; Keyboard_dismiss]).
Proof. repeat split; reflexivity. Qed.

(** C9 on the contact field: with the text "abc" the first rule passes,
    the pattern fails and the last rule would fail too; the result is the
    message of the pattern. *)
Lemma first_failure_on_contact :
  check literal_RegExp contact (VStr "abc") (length_rule "gt" 2) = Normal None
  /\ check literal_RegExp contact (VStr "abc") (length_rule "gte" 10) =
     Normal (Some "Value of Contact field must be at least 10 characters long")
  /\ validateInput literal_RegExp contact (VStr "abc") =
     Normal (Some "Invalid format for Contact field").
Proof.
  split; [reflexivity | split; [reflexivity|]].
  apply (validateInput_first_failure literal_RegExp contact (VStr "abc")
           [length_rule "gt" 2] (pattern_rule "@") [length_rule "gte" 10]).
  - reflexivity.
  - constructor; [reflexivity | constructor].
  - reflexivity.
Defined.




(** C1 on the contact field: the two rules before the bound of ten pass
    on "a@cd", which is four characters long. *)
Lemma gte_rule_on_contact :
  safe_integer 10
  /\ validateInput literal_RegExp contact (VStr "a@cd") =
     Normal (Some "Value of Contact field must be at least 10 characters long").
Proof.
  split; [unfold safe_integer; lia|].
  apply (length_gte_rule literal_RegExp contact
           [length_rule "gt" 2; pattern_rule "@"] [] 10 "a@cd").
  - unfold safe_integer. lia.
  - reflexivity.
  - repeat (constructor; [reflexivity|]). constructor.
Defined.

(** C2 on the contact field: "ab" is two characters long, not more. *)
Lemma gt_rule_on_contact :
  safe_integer 2
  /\ validateInput literal_RegExp contact (VStr "ab") =
     Normal (Some "Value of Contact field must be longer than 2 characters").
Proof.
  split; [unfold safe_integer; lia|].
  apply (length_gt_rule literal_RegExp contact
           [] [pattern_rule "@"; length_rule "gte" 10] 2 "ab").
  - unfold safe_integer. lia.
  - reflexivity.
  - constructor.
Defined.

(** C7 on scenario 1: one required input, nothing typed. *)
Lemma validation_failed_on_empty_email :
  validation literal_RegExp standard_prototype (form_of [email]) (mounted ∅) =
    Normal ({["email" := "Email is required"]}, true)
  /\ handleSubmit literal_RegExp standard_prototype (form_of [email]) (mounted ∅) (fulfilled 200) =
    Normal ({| formData := ∅; errors := {["email" := "Email is required"]} |},
            [Alert_alert "Validation Error" "Please correct the errors in the form"]).
Proof.
  split; [reflexivity|].
  apply (validation_failed literal_RegExp standard_prototype (form_of [email]) (mounted ∅)
      (fulfilled 200)
           {["email" := "Email is required"]} true).
  - reflexivity.
  - apply singleton_form_nonempty.
Defined.


(** Scenario 2 with the network down: the form data is kept. *)
Lemma rejected_post_on_filled_email :
  validation literal_RegExp standard_prototype (form_of [email])
      (mounted {["email" := VStr "a@b.com"]}) =
    Normal (∅, false)
  /\ handleSubmit literal_RegExp standard_prototype (form_of [email])
    (mounted {["email" := VStr "a@b.com"]}) rejected =
  Normal ({| formData := {["email" := VStr "a@b.com"]}; errors := ∅ |},
          [submit {["email" := VStr "a@b.com"]};
           Alert_alert "Error" "An error occurred while submitting the form"]).
Proof.
  split; [reflexivity|].
  exact (rejected_post_keeps_form literal_RegExp standard_prototype (form_of [email])
           (mounted {["email" := VStr "a@b.com"]}) ∅ eq_refl).
Defined.

(** Scenario 3: five characters fail the bound of ten, eleven pass. *)
Example bio_scenario :
  validation literal_RegExp standard_prototype (form_of [bio]) (mounted {["bio" := VStr "short"]}) =
    Normal ({["bio" := "Value of Bio field must be at least 10 characters long"]}, true)
  /\ validation literal_RegExp standard_prototype (form_of [bio])
      (mounted {["bio" := VStr "exactly ten"]}) =
    Normal (∅, false).
Proof. split; reflexivity. Qed.

(** Scenario 4: a required input inside a ["block"] container, beside an
    empty row, does not stop the submission. *)
Example block_scenario :
  handleSubmit literal_RegExp standard_prototype
    {| blueprint := [block [email]; row [ {| size := 1; elements := [] |} ]] |}
    (mounted ∅) (fulfilled 200) =
  Normal ({| formData := ∅; errors := ∅ |},
          [submit ∅; Alert_alert "Success" "Form submitted successfully"; Keyboard_dismiss]).
Proof. reflexivity. Qed.

(** Names of members of [Object.prototype]. A required field named
    "toString" that was never edited reads the inherited function, which
    is truthy: the required check does not fire and the request is sent.
    A field named "hasOwnProperty" with a minimum length of one reads a
    function whose [length] is one and passes. *)
Example inherited_members_are_read :
  handleSubmit literal_RegExp standard_prototype
    (form_of [ {| type := "input"; name := Some "toString"; label := Some "Text";
                  required := true; validator := None |} ])
    (mounted ∅) rejected =
  Normal ({| formData := ∅; errors := ∅ |},
          [submit ∅; Alert_alert "Error" "An error occurred while submitting the form"])
  /\ validation literal_RegExp standard_prototype
       (form_of [ {| type := "input"; name := Some "hasOwnProperty"; label := Some "Own";
                     required := false; validator := Some [length_rule "gte" 1] |} ])
       (mounted ∅) =
     Normal (∅, false).
Proof. split; reflexivity. Qed.

(** * Further properties of the validator and the submit handler *)

(** ** Definitions used to state them *)

(** A rule that some branch of [validateInput] acts on: a ["pattern"]
    rule, or a ["length"] rule whose operator is ["gt"] or ["gte"]. *)
Definition recognised (r : Rule) : bool :=
  match r with
  | length_rule operator _ => String.eqb operator "gt" || String.eqb operator "gte"
  | pattern_rule _ => true
  | other_rule _ => false
  end.

Definition is_length (r : Rule) : bool :=
  match r with length_rule _ _ => true | _ => false end.

(** The element with another list of rules. *)
Definition with_rules (element : Element) (rules : list Rule) : Element :=
  {| type := type element; name := name element; label := label element;
     required := required element; validator := Some rules |}.

(** [validationErrors[key] = message; hasErrors = true], or nothing. *)
Definition record_error (key : string) (u : option string) (acc : gmap string string * bool)
  : gmap string string * bool :=
  match u with
  | Some message => (set_property key message acc.1, true)
  | None => acc
  end.

(** The message that [visit] leaves for an element, if any: the required
    message when the required check fires, otherwise what the validator
    returned. *)
Definition verdict (RegExp : string -> option (string -> bool))
    (Object_prototype : string -> option Value) (st : State) (element : Element)
  : completion (option string) :=
  error <- match validator element with
           | Some _ => validateInput RegExp element (validated_value Object_prototype st element)
           | None => Normal None
           end ;;
  Normal (if required element && negb (truthy (current Object_prototype st element))
          then Some (required_message element)
          else error).

(** An element that [visit] passes without recording anything. *)
Definition passes (RegExp : string -> option (string -> bool))
    (Object_prototype : string -> option Value) (st : State) (element : Element)
  : Prop :=
  verdict RegExp Object_prototype st element = Normal None.

(** An element that is valid on its own: its validator, if it has one,
    returns [null] on the value [handleSubmit] gives it, and its value is
    truthy if it is required. *)
Definition acceptable (RegExp : string -> option (string -> bool))
    (Object_prototype : string -> option Value) (st : State)
    (element : Element) : Prop :=
  match validator element with
  | Some _ => validateInput RegExp element (validated_value Object_prototype st element)
      = Normal None
  | None => True
  end
  /\ (required element = true -> truthy (current Object_prototype st element) = true).

Definition is_alert (e : Effect) : bool :=
  match e with Alert_alert _ _ => true | _ => false end.

(** The alerts among the effects of a run. *)
Definition alerts (l : list Effect) : list Effect := List.filter is_alert l.

Definition notes : Element :=
  {| type := "input"; name := Some "notes"; label := Some "Notes";
     required := false;
     validator := Some [other_rule "email"; length_rule "lt" 5; length_rule "gte" 3] |}.

Definition broken : Element :=
  {| type := "input"; name := Some "code"; label := Some "Code";
     required := false;
     validator := Some [length_rule "gte" 2; pattern_rule "("] |}.

(** ** The validator: unknown rules, acceptance, rule order, longer values *)

Section ValidatorMore.
Variable RegExp : string -> option (string -> bool).
Variable Object_prototype : string -> option Value.

Lemma check_unrecognised element value rule :
  recognised rule = false -> check RegExp element value rule = Normal None.
Proof.
  destruct rule as [operator n|regexp|t]; simpl; try discriminate; [|reflexivity].
  intros H. apply orb_false_elim in H as [-> ->]. reflexivity.
Qed.

Lemma validators_recognised element value rules :
  validators RegExp element value (List.filter recognised rules) =
  validators RegExp element value rules.
Proof.
  induction rules as [|rule rules IH]; simpl; [reflexivity|].
  destruct (recognised rule) eqn:E; simpl.
  - destruct (check RegExp element value rule) as [[m|]|]; simpl; auto.
  - rewrite (check_unrecognised _ _ _ E). simpl. exact IH.
Qed.

Lemma check_with_rules element rules value rule :
  check RegExp (with_rules element rules) value rule = check RegExp element value rule.
Proof. destruct rule; reflexivity. Qed.

Lemma validators_with_rules element rules value l :
  validators RegExp (with_rules element rules) value l = validators RegExp element value l.
Proof.
  induction l as [|rule l IH]; simpl; [reflexivity|].
  rewrite check_with_rules, IH. reflexivity.
Qed.

(** X1. Rules that no branch of [validateInput] handles (a [type] other
    than ["length"] and ["pattern"], or a length rule whose operator is
    neither ["gt"] nor ["gte"]) have no effect: the result is the same
    with those rules deleted from the element. *)
Theorem unrecognised_rules_ignored (element : Element) (rules : list Rule) (value : Value) :
  validateInput RegExp (with_rules element rules) value =
  validateInput RegExp (with_rules element (List.filter recognised rules)) value.
Proof.
  unfold validateInput. cbn [validator with_rules].
  rewrite !validators_with_rules. symmetry. apply validators_recognised.
Qed.

Lemma validators_accept element value rules :
  validators RegExp element value rules = Normal None <->
  Forall (fun r => check RegExp element value r = Normal None) rules.
Proof.
  induction rules as [|rule rules IH]; simpl.
  - split; [constructor | reflexivity].
  - destruct (check RegExp element value rule) as [[m|]|] eqn:E; simpl.
    + split; [discriminate | intros H; apply Forall_cons in H as [H _]; simpl in H; congruence].
    + rewrite IH. split; [intros H; constructor; [exact E | exact H]|].
      intros H. apply Forall_cons in H as [_ H]. exact H.
    + split; [discriminate | intros H; apply Forall_cons in H as [H _]; simpl in H; congruence].
Qed.

(** X2. [validateInput] returns [null] exactly when every rule of the
    element, evaluated on the value, neither returns a message nor
    throws: nothing is skipped on the way to an acceptance. *)
Theorem accepted_iff_every_rule_passes (element : Element) (rules : list Rule) (value : Value) :
  validateInput RegExp (with_rules element rules) value = Normal None <->
  Forall (fun r => check RegExp element value r = Normal None) rules.
Proof.
  unfold validateInput. cbn [validator with_rules].
  rewrite validators_with_rules. apply validators_accept.
Qed.

(** X3. Whether a value is accepted does not depend on the order of the
    rules (only the message reported on a refusal does): a value accepted
    under one order of the rules is accepted under every other. *)
Theorem acceptance_ignores_rule_order (element : Element) (rules rules' : list Rule)
    (value : Value) :
  Permutation rules rules' ->
  validateInput RegExp (with_rules element rules) value = Normal None ->
  validateInput RegExp (with_rules element rules') value = Normal None.
Proof.
  intros Hperm. unfold validateInput. cbn [validator with_rules].
  rewrite !validators_with_rules, !validators_accept.
  intros H. rewrite <- Hperm. exact H.
Qed.

Lemma check_length_longer element rule v w :
  is_length rule = true ->
  (String.length v <= String.length w)%nat ->
  check RegExp element (VStr v) rule = Normal None ->
  check RegExp element (VStr w) rule = Normal None.
Proof.
  destruct rule as [operator n|regexp|t]; simpl; try discriminate.
  intros _ Hlen.
  destruct (String.eqb operator "gt"); simpl.
  - destruct (Z.leb_spec (Z.of_nat (String.length v)) n); [discriminate|].
    destruct (Z.leb_spec (Z.of_nat (String.length w)) n); [lia|].
    destruct (String.eqb operator "gte"); simpl; [|reflexivity].
    destruct (Z.ltb_spec (Z.of_nat (String.length v)) n); [discriminate|].
    destruct (Z.ltb_spec (Z.of_nat (String.length w)) n); [lia | reflexivity].
  - destruct (String.eqb operator "gte"); simpl; [|reflexivity].
    destruct (Z.ltb_spec (Z.of_nat (String.length v)) n); [discriminate|].
    destruct (Z.ltb_spec (Z.of_nat (String.length w)) n); [lia | reflexivity].
Qed.

(** X4. Length rules only bound the length from below: when all the rules
    of an element are length rules and a text is accepted, every text at
    least as long is accepted too. *)
Theorem longer_text_accepted (element : Element) (rules : list Rule) (v w : string) :
  forallb is_length rules = true ->
  (String.length v <= String.length w)%nat ->
  validateInput RegExp (with_rules element rules) (VStr v) = Normal None ->
  validateInput RegExp (with_rules element rules) (VStr w) = Normal None.
Proof.
  intros Hall Hlen. unfold validateInput. cbn [validator with_rules].
  rewrite !validators_with_rules, !validators_accept.
  pose proof (proj1 (forallb_forall _ _) Hall) as Hlength. rewrite !Forall_forall.
  intros H r Hr. apply (check_length_longer element r v w).
  - apply Hlength. apply list_elem_of_In. exact Hr.
  - exact Hlen.
  - apply H, Hr.
Qed.

End ValidatorMore.

(** ** The traversal seen through the message left for each element *)

Lemma record_error_lookup_ne (key : string) (u : option string)
    (acc : gmap string string * bool) (k : string) :
  key <> k -> (record_error key u acc).1 !! k = acc.1 !! k.
Proof.
  intros Hk. destruct u as [m|]; simpl; [|reflexivity].
  apply lookup_set_property_ne, Hk.
Qed.

Section HandlerMore.
Variable RegExp : string -> option (string -> bool).
Variable Object_prototype : string -> option Value.

Lemma visit_verdict st acc element :
  visit RegExp Object_prototype st acc element =
  (u <- verdict RegExp Object_prototype st element ;; Normal (record_error (key_of element) u acc)).
Proof.
  unfold visit, verdict, current, key_of, required_message.
  destruct (validator element) as [rules|]; simpl.
  - destruct (validateInput RegExp element (validated_value Object_prototype st element))
      as [[message|]|] eqn:Herror; simpl; [|idtac|reflexivity].
    + rewrite (validateInput_message_nonempty _ _ _ _ Herror).
      destruct (required element && _); simpl; [|reflexivity].
      rewrite set_property_twice. reflexivity.
    + destruct (required element && _); reflexivity.
  - destruct (required element && _); reflexivity.
Qed.





Lemma verdict_source st element message :
  verdict RegExp Object_prototype st element = Normal (Some message) ->
  (required element = true /\ truthy (current Object_prototype st element) = false
   /\ message = required_message element)
  \/ validateInput RegExp element (validated_value Object_prototype st element)
      = Normal (Some message).
Proof.
  unfold verdict.
  destruct (required element && negb (truthy (current Object_prototype st element))) eqn:Hreq.
  - apply andb_prop in Hreq as [Hr Hf]. apply negb_true_iff in Hf.
    destruct (match validator element with Some _ => _ | None => _ end); simpl; [|discriminate].
    intros [= <-]. left. auto.
  - destruct (validator element) as [rules|]; simpl; [|discriminate].
    destruct (validateInput RegExp element (validated_value Object_prototype st element))
        as [error|];
      simpl; [|discriminate].
    intros [= ->]. right. reflexivity.
Qed.

Lemma passes_acceptable st element :
  passes RegExp Object_prototype st element <-> acceptable RegExp Object_prototype st element.
Proof.
  unfold passes, acceptable, verdict.
  destruct (validator element) as [rules|];
    [destruct (validateInput RegExp element (validated_value Object_prototype st element))
        as [[m|]|]|];
    destruct (required element), (truthy (current Object_prototype st element)); simpl;
    (split;
     [ intros H; try discriminate H;
       (split; [first [reflexivity | exact I] | intros; first [reflexivity | discriminate]])
     | intros [H1 H2]; try discriminate H1; try reflexivity;
       specialize (H2 eq_refl); discriminate H2 ]).
Qed.

Lemma forEach_visit_clean st l acc acc' :
  forEach (visit RegExp Object_prototype st) l acc = Normal acc' ->
  acc'.2 = false ->
  acc' = acc /\ Forall (passes RegExp Object_prototype st) l.
Proof.
  revert acc. induction l as [|element l IH]; intros acc; simpl.
  - intros [= <-] _. split; [reflexivity | constructor].
  - rewrite visit_verdict.
    destruct (verdict RegExp Object_prototype st element) as [u|] eqn:Hu; simpl; [|discriminate].
    intros Hrest Hflag. destruct (IH _ Hrest Hflag) as [-> Hl].
    destruct u as [m|]; simpl in Hflag; [discriminate|].
    split; [reflexivity | constructor; [exact Hu | exact Hl]].
Qed.

Lemma forEach_visit_pass st l acc :
  Forall (passes RegExp Object_prototype st) l
      -> forEach (visit RegExp Object_prototype st) l acc = Normal acc.
Proof.
  induction 1 as [|element l He _ IH]; simpl; [reflexivity|].
  rewrite visit_verdict, He. simpl. exact IH.
Qed.

Lemma forEach_visit_sources st l acc acc' k m :
  forEach (visit RegExp Object_prototype st) l acc = Normal acc' ->
  acc'.1 !! k = Some m ->
  acc.1 !! k = Some m
  \/ exists element, element ∈ l /\ key_of element = k
                     /\ verdict RegExp Object_prototype st element = Normal (Some m).
Proof.
  revert acc. induction l as [|element l IH]; intros acc; simpl.
  - intros [= <-] H. left. exact H.
  - rewrite visit_verdict.
    destruct (verdict RegExp Object_prototype st element) as [u|] eqn:Hu; simpl; [|discriminate].
    intros Hrest Hk. destruct (IH _ Hrest Hk) as [Hacc|(e & He & Hkey & Hv)].
    + destruct u as [m'|]; simpl in Hacc; [|left; exact Hacc].
      rewrite lookup_set_property in Hacc.
      destruct (String.eqb (key_of element) "__proto__"); [left; exact Hacc|].
      destruct (String.eqb_spec (key_of element) k) as [Hkey|_]; [|left; exact Hacc].
      right. exists element. split; [left | split; [exact Hkey | congruence]].
    + right. exists e. split; [right; exact He | auto].
Qed.

End HandlerMore.

(** ** The submit handler: when it sends, what it records, how runs compose *)

Section HandlerProperties.
Variable RegExp : string -> option (string -> bool).
Variable Object_prototype : string -> option Value.

(** X5. The handler sends the request exactly when every element of the
    rows passes on its own: its validator, if it has one, returns [null]
    on [formData[name] || ""], and its value is truthy if it is
    required. (The outcome of the request plays no part.) *)
Theorem request_sent_iff_all_pass (config : Config) (st : State) (net : FetchOutcome) :
  (exists st' effects,
     handleSubmit RegExp Object_prototype config st net = Normal (st', effects)
     /\ requests effects = [submit (formData st)])
  <-> Forall (acceptable RegExp Object_prototype st) (traversed config).
Proof.
  rewrite <- (Forall_iff (passes RegExp Object_prototype st) (traversed config)
      (acceptable RegExp Object_prototype st)
                (passes_acceptable RegExp Object_prototype st)).
  unfold handleSubmit. rewrite validation_traversed. split.
  - intros (st' & effects & Hrun & Hreq).
    destruct (forEach (visit RegExp Object_prototype st) (traversed config) (∅, false))
      as [[errs flag]|] eqn:Hval; simpl in Hrun; [|discriminate].
    destruct flag; [injection Hrun as <- <-; discriminate|].
    exact (proj2 (forEach_visit_clean RegExp Object_prototype st _ _ _ Hval eq_refl)).
  - intros Hall. rewrite (forEach_visit_pass RegExp Object_prototype st _ (∅, false) Hall). simpl.
    destruct net; eexists _, _; split; reflexivity.
Qed.

(** X6. Every entry of the errors that a traversal produces comes from an
    element of a row stored under that key: the message is that
    element's required message, its value being falsy, or the message
    its validator returned. *)
Theorem every_error_has_a_source (config : Config) (st : State)
    (errs : gmap string string) (flag : bool) (k message : string) :
  validation RegExp Object_prototype config st = Normal (errs, flag) ->
  errs !! k = Some message ->
  exists element,
    element ∈ traversed config /\ key_of element = k
    /\ ((required element = true /\ truthy (get_property Object_prototype (formData st) k) = false
         /\ message = required_message element)
        \/ validateInput RegExp element (validated_value Object_prototype st element)
            = Normal (Some message)).
Proof.
  rewrite validation_traversed. intros Hval Hk.
  destruct (forEach_visit_sources RegExp Object_prototype st _ _ _ k message Hval Hk)
    as [Hempty|(element & Hin & Hkey & Hv)].
  - simpl in Hempty. rewrite lookup_empty in Hempty. discriminate.
  - exists element. split; [exact Hin | split; [exact Hkey|]].
    subst k. exact (verdict_source RegExp Object_prototype st element message Hv).
Qed.


(** X8. A run that completes shows exactly one alert and sends at most one
    request: either it shows the "Validation Error" alert, sends nothing
    and keeps the form data, or it sends the request, leaves the errors
    empty and keeps the form data or empties it. *)
Theorem one_alert_per_run (config : Config) (st st' : State) (net : FetchOutcome)
    (effects : list Effect) :
  handleSubmit RegExp Object_prototype config st net = Normal (st', effects) ->
  (exists title message, alerts effects = [Alert_alert title message])
  /\ (requests effects = []
      /\ alerts effects
         = [Alert_alert "Validation Error" "Please correct the errors in the form"]
      /\ formData st' = formData st
      \/ requests effects = [submit (formData st)] /\ errors st' = ∅
         /\ (formData st' = formData st \/ formData st' = ∅)).
Proof.
  unfold handleSubmit.
  destruct (validation RegExp Object_prototype config st) as [[errs flag]|] eqn:Hval;
    simpl; [|discriminate].
  destruct flag.
  - intros [= <- <-]. split; [eexists _, _; reflexivity|]. left. repeat split.
  - destruct net as [status|]; intros [= <- <-];
      (split; [eexists _, _; reflexivity|]); right; simpl; auto.
Qed.

End HandlerProperties.

(** ** Editing a field, malformed patterns, bounded fields left empty *)

Section EditsAndFailures.
Variable RegExp : string -> option (string -> bool).
Variable Object_prototype : string -> option Value.

Lemma verdict_after_edit st n v element :
  key_of element <> property_key n ->
  verdict RegExp Object_prototype (handleInputChange st n v) element
      = verdict RegExp Object_prototype st element.
Proof.
  intros Hk. unfold verdict, validated_value, current, get_property, handleInputChange,
    key_of in *. simpl.
  rewrite !lookup_insert_ne by (intros E; apply Hk; symmetry; exact E). reflexivity.
Qed.

Lemma forEach_visit_agree st n v l acc1 acc2 r1 r2 :
  (forall k, k <> property_key n -> acc1.1 !! k = acc2.1 !! k) ->
  forEach (visit RegExp Object_prototype st) l acc1 = Normal r1 ->
  forEach (visit RegExp Object_prototype (handleInputChange st n v)) l acc2 = Normal r2 ->
  forall k, k <> property_key n -> r1.1 !! k = r2.1 !! k.
Proof.
  revert acc1 acc2. induction l as [|element l IH]; intros acc1 acc2 Hacc; simpl.
  - intros [= <-] [= <-]. exact Hacc.
  - rewrite !visit_verdict.
    destruct (verdict RegExp Object_prototype st element) as [u1|] eqn:Hu1; simpl; [|discriminate].
    destruct (verdict RegExp Object_prototype (handleInputChange st n v) element) as [u2|] eqn:Hu2;
      simpl; [|discriminate].
    apply IH. intros k Hk.
    destruct (String.eqb_spec (key_of element) (property_key n)) as [Hkey|Hkey].
    + rewrite !record_error_lookup_ne by congruence. apply Hacc, Hk.
    + assert (u1 = u2) as <-.
      { rewrite verdict_after_edit in Hu2 by exact Hkey. congruence. }
      destruct u1 as [m|]; simpl; [|apply Hacc, Hk].
      rewrite !lookup_set_property.
      destruct (String.eqb (key_of element) "__proto__"); [apply Hacc, Hk|].
      destruct (String.eqb (key_of element) k); [reflexivity | apply Hacc, Hk].
Qed.

(** X9. Editing one field changes at most that field's error: when the
    traversal completes before and after [handleInputChange] on a name,
    the two error maps agree on every other key. *)
Theorem edit_changes_only_its_error (config : Config) (st : State)
    (n : option string) (v : Value)
    (errs errs' : gmap string string) (flag flag' : bool) (k : string) :
  validation RegExp Object_prototype config st = Normal (errs, flag) ->
  validation RegExp Object_prototype config (handleInputChange st n v) = Normal (errs', flag') ->
  k <> property_key n ->
  errs' !! k = errs !! k.
Proof.
  rewrite !validation_traversed. intros H1 H2 Hk. symmetry.
  exact (forEach_visit_agree st n v _ _ _ _ _ (fun _ _ => eq_refl) H1 H2 k Hk).
Qed.

Lemma validators_throw element value before regexp after :
  Forall (fun r => check RegExp element value r = Normal None) before ->
  RegExp regexp = None ->
  validators RegExp element value (before ++ pattern_rule regexp :: after) = Throw.
Proof.
  intros Hbefore Hbad. induction Hbefore as [|r before Hr _ IH]; simpl.
  - rewrite Hbad. reflexivity.
  - rewrite Hr. simpl. exact IH.
Qed.

(** X10. A pattern that the engine refuses makes the whole handler throw
    as soon as the traversal reaches it, that is when the elements
    before its element complete and the rules before it pass: no alert
    is shown, no request is sent and no state is set. *)
Theorem malformed_pattern_aborts_submit (config : Config) (st : State) (net : FetchOutcome)
    (before : list Element) (element : Element) (after : list Element)
    (rules_before : list Rule) (regexp : string) (rules_after : list Rule) :
  traversed config = (before ++ element :: after)%list ->
  Forall (fun e => patterns_compile RegExp e = true) before ->
  validator element = Some (rules_before ++ pattern_rule regexp :: rules_after)%list ->
  Forall (fun r => check RegExp element (validated_value Object_prototype st element) r
      = Normal None)
    rules_before ->
  RegExp regexp = None ->
  handleSubmit RegExp Object_prototype config st net = Throw.
Proof.
  intros Hsplit Hbefore Hrules Hpass Hbad.
  unfold handleSubmit. rewrite validation_traversed, Hsplit, forEach_app.
  destruct (forEach_total _ (visit RegExp Object_prototype st)
              (fun s x => visit_total RegExp Object_prototype st s x) before
                  (∅, false) Hbefore) as [acc ->].
  simpl. unfold visit, validateInput. rewrite Hrules.
  rewrite (validators_throw _ _ _ _ _ Hpass Hbad). reflexivity.
Qed.

(** X11. A field with a minimum length cannot be left empty even when it
    is not required: if the first rule that does not pass on the empty
    text is a length rule with operator ["gte"] and a positive bound, or
    with operator ["gt"] and a bound that is not negative, then a falsy
    value (as [formData[name]] reads, inherited members included)
    assigns that rule's message under the field's name and sets
    [hasErrors]. *)
Theorem bounded_field_cannot_stay_empty (st : State) (acc : gmap string string * bool)
    (element : Element) (before : list Rule) (operator : string) (N : Z)
    (after : list Rule) :
  validator element = Some (before ++ length_rule operator N :: after)%list ->
  Forall (fun r => check RegExp element (VStr "") r = Normal None) before ->
  (operator = "gte" /\ (0 < N)%Z) \/ (operator = "gt" /\ (0 <= N)%Z) ->
  required element = false ->
  truthy (current Object_prototype st element) = false ->
  exists message,
    check RegExp element (VStr "") (length_rule operator N) = Normal (Some message)
    /\ visit RegExp Object_prototype st acc element
       = Normal (set_property (key_of element) message acc.1, true).
Proof.
  intros Hrules Hbefore Hbound Hreq Hfalsy.
  assert (validated_value Object_prototype st element = VStr "") as Hvalue.
  { unfold validated_value, or_empty. fold (key_of element).
    fold (current Object_prototype st element).
    destruct (current Object_prototype st element) as [x|]; [|reflexivity].
    rewrite Hfalsy. reflexivity. }
  assert (exists message,
            check RegExp element (VStr "") (length_rule operator N) = Normal (Some message))
    as [message Hcheck].
  { destruct Hbound as [[-> HN]|[-> HN]].
    - rewrite check_gte. simpl. change (Z.of_nat 0) with 0%Z.
      destruct (Z.ltb_spec 0 N); [eexists; reflexivity | lia].
    - rewrite check_gt. simpl. change (Z.of_nat 0) with 0%Z.
      destruct (Z.leb_spec 0 N); [eexists; reflexivity | lia]. }
  exists message. split; [exact Hcheck|].
  rewrite visit_verdict. unfold verdict, validateInput.
  rewrite Hrules, Hvalue, Hreq. simpl.
  rewrite (validators_first RegExp element (VStr "") before _ after message Hbefore Hcheck).
  reflexivity.
Qed.

(** X18. When the engine accepts every pattern of the elements of the
    rows, the handler never throws: whatever the form data and however
    the request settles, the run completes. (A missing [validator] is
    never iterated: [validateInput] is called behind the test of
    [element.validator].) *)
Theorem handler_completes (config : Config) (st : State) (net : FetchOutcome) :
  Forall (fun e => patterns_compile RegExp e = true) (traversed config) ->
  exists st' effects, handleSubmit RegExp Object_prototype config st net = Normal (st', effects).
Proof.
  intros Hcompile. unfold handleSubmit. rewrite validation_traversed.
  destruct (forEach_total _ (visit RegExp Object_prototype st)
              (fun s x => visit_total RegExp Object_prototype st s x) (traversed config)
                  (∅, false) Hcompile)
    as [[errs flag] ->].
  simpl. destruct flag; [|destruct net]; eexists _, _; reflexivity.
Qed.

End EditsAndFailures.

(** ** The form state store: successive edits *)

(** X12. Edits of the same field overwrite each other and edits of
    different fields commute: after two calls of [handleInputChange] the
    store holds, for the second name, the second value, and for a
    different first name, the first value. *)
Theorem last_edit_wins (st : State) (n1 n2 : option string) (v1 v2 : Value) (k : string) :
  formData (handleInputChange (handleInputChange st n1 v1) n2 v2) !! k =
    if String.eqb (property_key n2) k then Some v2
    else if String.eqb (property_key n1) k then Some v1
    else formData st !! k.
Proof.
  simpl.
  destruct (String.eqb_spec (property_key n2) k) as [->|H2].
  - apply lookup_insert_eq.
  - rewrite lookup_insert_ne by exact H2.
    destruct (String.eqb_spec (property_key n1) k) as [->|H1].
    + apply lookup_insert_eq.
    + apply lookup_insert_ne, H1.
Qed.

(** * Rendering: [renderElement], [renderColumn], [renderRow] and the form *)

(** ** The blueprint as the renderer reads it *)

(** An element object of the blueprint: the attributes [handleSubmit]
    reads ([base]) and the two that only [renderElement] reads, the
    text [value] of a heading or paragraph and the [help] of a
    password. *)
Record Item := {
  base : Element;
  value : option string;
  help : option string
}.

Record ItemColumn := {
  column_size : Z;
  items : list Item
}.

Inductive ItemBlock :=
| item_row (columns : list ItemColumn)
| item_block (items : list Item)
| item_other (type : string).

Definition Column_of (c : ItemColumn) : Column :=
  {| size := column_size c; elements := map base (items c) |}.

Definition Block_of (b : ItemBlock) : Block :=
  match b with
  | item_row columns => row (map Column_of columns)
  | item_block its => block (map base its)
  | item_other t => other_block t
  end.

(** What [handleSubmit] reads of the blueprint. *)
Definition Config_of (layout : list ItemBlock) : Config :=
  {| blueprint := map Block_of layout |}.

(** ** React elements *)

(** The elements that the component returns, with the props it sets. A
    style is the name of its entry in [styles]; [flex] is the second
    entry of the style array of a column. [Fragment] is an array used as
    a child, [Str] a string used as a child, [Null] a child that is
    [null] or [undefined]. A handler is the state it sets, or for
    [onPress] the run of [handleSubmit]. *)
#[warnings="-register-all"]
Inductive Node :=
| Text (key : option nat) (style : option string) (children : option string)
| TextInput (shown : Value) (onChangeText : string -> State) (style : option string)
    (placeholder : option string) (secureTextEntry : option bool)
| CheckBox (isChecked : Value) (onClick : State)
| Pressable (key : option nat)
    (onPress : FetchOutcome -> completion (State * list Effect))
    (style : option string) (children : list Node)
| View (key : option nat) (style : option string) (flex : option Z) (children : list Node)
| Fragment (children : list Node)
| Str (s : string)
| Null.

(** [v || false]. *)
Definition or_false (v : option Value) : Value :=
  match v with
  | Some x => if truthy v then x else VBool false
  | None => VBool false
  end.

(** [s || ""] on a string that may be missing. *)
Definition or_empty_string (s : option string) : string :=
  match s with
  | Some x => if nonempty x then x else ""
  | None => ""
  end.

(** [errors[name] && <Text style={styles.errorText}>...</Text>], lines
    130-132 and 146-148. *)
Definition error_line (st : State) (k : string) : Node :=
  match errors st !! k with
  | None => Null
  | Some message =>
      if nonempty message then Text None (Some "errorText") (Some message) else Str ""
  end.

Section Render.
Variable RegExp : string -> option (string -> bool).
Variable Object_prototype : string -> option Value.
Variable layout : list ItemBlock.

(** [renderElement], lines 111-176, in the render of state [st]. *)
Definition renderElement (st : State) (item : Item) (key : nat) : Node :=
  let element := base item in
  let k := property_key (name element) in
  if String.eqb (type element) "heading" then
    Text (Some key) (Some "heading") (value item)
  else if String.eqb (type element) "paragraph" then
    Text (Some key) None (value item)
  else if String.eqb (type element) "input" then
    View (Some key) None None
      [Text None None (label element);
       TextInput (or_empty (formData st !! k))
         (fun text => handleInputChange st (name element) (VStr text))
         (Some "input") None None;
       error_line st k]
  else if String.eqb (type element) "password" then
    View (Some key) None None
      [Text None None (label element);
       TextInput (or_empty (formData st !! k))
         (fun text => handleInputChange st (name element) (VStr text))
         (Some "input") (Some (or_empty_string (help item)))
         (Some (String.eqb (type element) "password"));
       error_line st k]
  else if String.eqb (type element) "checkbox" then
    View (Some key) (Some "checkBoxContainer") None
      [CheckBox (or_false (formData st !! k))
         (handleInputChange st (name element) (VBool (negb (truthy (formData st !! k)))));
       Text None None (label element)]
  else if String.eqb (type element) "submit" then
    Pressable (Some key) (handleSubmit RegExp Object_prototype (Config_of layout) st)
        (Some "submitButton")
      [Text None None (label element)]
  else Null.

(** [renderColumn], lines 178-184. *)
Definition renderColumn (st : State) (column : ItemColumn) (key : nat) : Node :=
  View (Some key) (Some "column") (Some (column_size column))
    (imap (fun index item => renderElement st item index) (items column)).

(** [renderRow], lines 186-192. *)
Definition renderRow (st : State) (columns : list ItemColumn) (key : nat) : Node :=
  View (Some key) (Some "row") None
    (imap (fun index column => renderColumn st column index) columns).

(** What [DynamicForm] returns, lines 194-205. *)
Definition DynamicForm (st : State) : Node :=
  View None None None
    (imap (fun index b =>
             match b with
             | item_block its => Fragment (imap (fun i item => renderElement st item i) its)
             | item_row columns => renderRow st columns index
             | item_other _ => Null
             end) layout).

End Render.

(** ** What is on screen *)

(** The controls and error lines of a rendering, in display order, keys
    and styles left out. *)
Inductive Control :=
| entry (shown : Value) (onChangeText : string -> State)
| tick (isChecked : Value) (onClick : State)
| button (onPress : FetchOutcome -> completion (State * list Effect))
| error_text (message : string).

Fixpoint controls (n : Node) : list Control :=
  match n with
  | Text _ style children =>
      match style, children with
      | Some s, Some message => if String.eqb s "errorText" then [error_text message] else []
      | _, _ => []
      end
  | TextInput shown onChangeText _ _ _ => [entry shown onChangeText]
  | CheckBox isChecked onClick => [tick isChecked onClick]
  | Pressable _ onPress _ children => button onPress :: flat_map controls children
  | View _ _ _ children => flat_map controls children
  | Fragment children => flat_map controls children
  | Str _ => []
  | Null => []
  end.

Definition error_texts (n : Node) : list string :=
  flat_map (fun c => match c with error_text message => [message] | _ => [] end) (controls n).

(** The values shown by the text inputs of a rendering. *)
Definition shown_texts (n : Node) : list Value :=
  flat_map (fun c => match c with entry shown _ => [shown] | _ => [] end) (controls n).

(** The values shown by the checkboxes of a rendering. *)
Definition shown_ticks (n : Node) : list Value :=
  flat_map (fun c => match c with tick isChecked _ => [isChecked] | _ => [] end) (controls n).

Definition is_text_field (element : Element) : bool :=
  String.eqb (type element) "input" || String.eqb (type element) "password".

Definition block_items (b : ItemBlock) : list Item :=
  match b with
  | item_row columns => flat_map items columns
  | item_block its => its
  | item_other _ => []
  end.

(** The items of the rows and of the ["block"] containers, in document order. *)
Definition all_items (layout : list ItemBlock) : list Item := flat_map block_items layout.

(** ** Properties of the rendering *)

Lemma required_message_nonempty (element : Element) :
  nonempty (required_message element) = true.
Proof.
  unfold required_message. destruct (template (label element)); reflexivity.
Qed.

Lemma flat_map_controls_imap {A} (f : nat -> A -> Node) (l : list A) :
  (forall i j x, controls (f i x) = controls (f j x)) ->
  flat_map controls (imap f l) = flat_map (fun x => controls (f 0%nat x)) l.
Proof.
  revert f. induction l as [|x l IH]; intros f Hf; simpl; [reflexivity|].
  rewrite (IH (f ∘ S)) by (intros i j y; apply Hf).
  f_equal. apply flat_map_ext. intros y. apply Hf.
Qed.

Section RenderProperties.
Variable RegExp : string -> option (string -> bool).
Variable Object_prototype : string -> option Value.
Variable layout : list ItemBlock.


Lemma controls_error_line st k :
  controls (error_line st k) =
    match errors st !! k with
    | Some message => if nonempty message then [error_text message] else []
    | None => []
    end.
Proof.
  unfold error_line. destruct (errors st !! k) as [message|]; [|reflexivity].
  destruct (nonempty message); reflexivity.
Qed.

(** The controls of a rendered element, case by case. *)
Lemma controls_renderElement st item key :
  controls (renderElement RegExp Object_prototype layout st item key) =
    if is_text_field (base item) then
      entry (or_empty (formData st !! key_of (base item)))
        (fun text => handleInputChange st (name (base item)) (VStr text))
      :: controls (error_line st (key_of (base item)))
    else if String.eqb (type (base item)) "checkbox" then
      [tick (or_false (formData st !! key_of (base item)))
         (handleInputChange st (name (base item))
            (VBool (negb (truthy (formData st !! key_of (base item))))))]
    else if String.eqb (type (base item)) "submit" then
      [button (handleSubmit RegExp Object_prototype (Config_of layout) st)]
    else [].
Proof.
  unfold renderElement, is_text_field, key_of.
  destruct (String.eqb_spec (type (base item)) "heading") as [E|_].
  { rewrite E. simpl. destruct (value item); reflexivity. }
  destruct (String.eqb_spec (type (base item)) "paragraph") as [E|_].
  { rewrite E. reflexivity. }
  destruct (String.eqb_spec (type (base item)) "input") as [E|_].
  { simpl. rewrite app_nil_r. reflexivity. }
  destruct (String.eqb_spec (type (base item)) "password") as [E|_].
  { simpl. rewrite app_nil_r. reflexivity. }
  destruct (String.eqb_spec (type (base item)) "checkbox") as [E|_]; [reflexivity|].
  destruct (String.eqb_spec (type (base item)) "submit") as [E|_]; reflexivity.
Qed.

Lemma controls_renderElement_key st item i j :
  controls (renderElement RegExp Object_prototype layout st item i) =
  controls (renderElement RegExp Object_prototype layout st item j).
Proof. rewrite !controls_renderElement. reflexivity. Qed.

Lemma error_texts_renderElement st item key :
  error_texts (renderElement RegExp Object_prototype layout st item key) =
    if is_text_field (base item)
    then match errors st !! key_of (base item) with
         | Some message => if nonempty message then [message] else []
         | None => []
         end
    else [].
Proof.
  unfold error_texts. rewrite controls_renderElement.
  destruct (is_text_field (base item)).
  - simpl. rewrite controls_error_line.
    destruct (errors st !! key_of (base item)) as [message|]; [|reflexivity].
    destruct (nonempty message); reflexivity.
  - destruct (String.eqb (type (base item)) "checkbox"); [reflexivity|].
    destruct (String.eqb (type (base item)) "submit"); reflexivity.
Qed.

Lemma shown_texts_renderElement st item key :
  shown_texts (renderElement RegExp Object_prototype layout st item key) =
    if is_text_field (base item)
    then [or_empty (formData st !! key_of (base item))]
    else [].
Proof.
  unfold shown_texts. rewrite controls_renderElement.
  destruct (is_text_field (base item)).
  - simpl. rewrite controls_error_line.
    destruct (errors st !! key_of (base item)) as [message|]; [|reflexivity].
    destruct (nonempty message); reflexivity.
  - destruct (String.eqb (type (base item)) "checkbox"); [reflexivity|].
    destruct (String.eqb (type (base item)) "submit"); reflexivity.
Qed.

Lemma shown_ticks_renderElement st item key :
  shown_ticks (renderElement RegExp Object_prototype layout st item key) =
    if is_text_field (base item) then []
    else if String.eqb (type (base item)) "checkbox"
         then [or_false (formData st !! key_of (base item))]
         else [].
Proof.
  unfold shown_ticks. rewrite controls_renderElement.
  destruct (is_text_field (base item)).
  - simpl. rewrite controls_error_line.
    destruct (errors st !! key_of (base item)) as [message|]; [|reflexivity].
    destruct (nonempty message); reflexivity.
  - destruct (String.eqb (type (base item)) "checkbox"); [reflexivity|].
    destruct (String.eqb (type (base item)) "submit"); reflexivity.
Qed.


Lemma or_empty_after_typing st n text :
  or_empty (formData (handleInputChange st n (VStr text)) !! property_key n) = VStr text.
Proof.
  simpl. rewrite lookup_insert_eq. unfold or_empty. simpl.
  destruct (String.eqb_spec text "") as [->|_]; reflexivity.
Qed.

(** X14. Typing round trip: for every text input on screen, calling its
    [onChangeText] with a text and rendering the element again shows
    exactly that text, and the error line of the element is what it was
    (typing does not clear an error). *)
Theorem typed_text_is_shown (st : State) (item : Item) (key : nat) (text : string) :
  Forall (fun c => match c with
                   | entry _ onChangeText =>
                       shown_texts (renderElement RegExp Object_prototype layout
                           (onChangeText text) item key)
                         = [VStr text]
                       /\ error_texts (renderElement RegExp Object_prototype layout
                           (onChangeText text) item key)
                          = error_texts (renderElement RegExp Object_prototype layout st item key)
                   | _ => True
                   end)
    (controls (renderElement RegExp Object_prototype layout st item key)).
Proof.
  rewrite controls_renderElement.
  destruct (is_text_field (base item)) eqn:Hfield.
  - constructor.
    + rewrite shown_texts_renderElement, !error_texts_renderElement, Hfield.
      unfold key_of. rewrite or_empty_after_typing. split; reflexivity.
    + rewrite controls_error_line.
      destruct (errors st !! key_of (base item)) as [message|]; [|constructor].
      destruct (nonempty message); repeat constructor.
  - destruct (String.eqb (type (base item)) "checkbox"); [repeat constructor|].
    destruct (String.eqb (type (base item)) "submit"); repeat constructor.
Qed.

(** X15. Clicking a checkbox negates what it shows: for every checkbox
    on screen, rendering the element in the state its [onClick] sets
    shows the boolean opposite to the truth value of what was shown. *)
Theorem click_toggles_checkbox (st : State) (item : Item) (key : nat) :
  Forall (fun c => match c with
                   | tick isChecked onClick =>
                       shown_ticks (renderElement RegExp Object_prototype layout onClick item key)
                         = [VBool (negb (truthy (Some isChecked)))]
                   | _ => True
                   end)
    (controls (renderElement RegExp Object_prototype layout st item key)).
Proof.
  rewrite controls_renderElement.
  destruct (is_text_field (base item)) eqn:Hfield.
  - constructor; [exact I|]. rewrite controls_error_line.
    destruct (errors st !! key_of (base item)) as [message|]; [|constructor].
    destruct (nonempty message); repeat constructor.
  - destruct (String.eqb (type (base item)) "checkbox") eqn:Hbox.
    + constructor; [|constructor].
      rewrite shown_ticks_renderElement, Hfield, Hbox. unfold key_of. simpl.
      rewrite lookup_insert_eq.
      destruct (formData st !! property_key (name (base item))) as [[s|[|]|len text]|];
        simpl;
        try reflexivity.
      destruct (String.eqb s "") eqn:Es; simpl; rewrite ?Es; reflexivity.
    + destruct (String.eqb (type (base item)) "submit"); repeat constructor.
Qed.

End RenderProperties.

(** ** The whole form on screen, and a failed submit seen on screen *)

Definition row_items (b : ItemBlock) : list Item :=
  match b with
  | item_row columns => flat_map items columns
  | item_block _ => []
  | item_other _ => []
  end.

Lemma flat_map_nested {A B C} (f : B -> list C) (g : A -> list B) (l : list A) :
  flat_map f (flat_map g l) = flat_map (fun x => flat_map f (g x)) l.
Proof.
  induction l as [|x l IH]; simpl; [reflexivity|].
  rewrite flat_map_app, IH. reflexivity.
Qed.

Lemma flat_map_controls_imap_const {A} (f : nat -> A -> Node) (g : A -> list Control)
    (l : list A) :
  (forall i x, controls (f i x) = g x) ->
  flat_map controls (imap f l) = flat_map g l.
Proof.
  revert f. induction l as [|x l IH]; intros f Hf; simpl; [reflexivity|].
  rewrite (IH (f ∘ S)) by (intros i y; apply Hf). rewrite Hf. reflexivity.
Qed.

Lemma traversed_Config_of (layout : list ItemBlock) :
  traversed (Config_of layout) = map base (flat_map row_items layout).
Proof.
  unfold traversed, Config_of. simpl.
  induction layout as [|b layout IH]; simpl; [reflexivity|].
  rewrite map_app, <- IH. f_equal.
  destruct b as [columns|its|t]; simpl; try reflexivity.
  induction columns as [|c columns IHc]; simpl; [reflexivity|].
  rewrite map_app, IHc. reflexivity.
Qed.

Section FormProperties.
Variable RegExp : string -> option (string -> bool).
Variable Object_prototype : string -> option Value.
Variable layout : list ItemBlock.

(** X16. The form puts on screen the controls of every item of its rows
    and of its ["block"] containers alike, in document order, while the
    traversal of the submit handler is the loop over the items of the
    rows only, in document order. *)
Theorem form_shows_rows_and_blocks (st : State) :
  controls (DynamicForm RegExp Object_prototype layout st) =
    flat_map (fun item => controls (renderElement RegExp Object_prototype layout st item 0))
      (all_items layout)
  /\ validation RegExp Object_prototype (Config_of layout) st =
     forEach (visit RegExp Object_prototype st) (map base (flat_map row_items layout))
       (∅, false).
Proof.
  split; [|rewrite validation_traversed, traversed_Config_of; reflexivity].
  unfold DynamicForm, all_items. cbn [controls].
  rewrite flat_map_nested. apply flat_map_controls_imap_const.
  intros index b. destruct b as [columns|its|t]; simpl.
  - rewrite flat_map_nested. apply flat_map_controls_imap_const.
    intros i column. unfold renderColumn. cbn [controls].
    apply flat_map_controls_imap_const.
    intros j item. apply controls_renderElement_key.
  - apply flat_map_controls_imap_const.
    intros j item. apply controls_renderElement_key.
  - reflexivity.
Qed.

Lemma forEach_visit_required st before element after acc :
  required element = true ->
  truthy (current Object_prototype st element) = false ->
  key_of element <> "__proto__" ->
  Forall (fun e => patterns_compile RegExp e = true) (before ++ element :: after) ->
  Forall (fun e => key_of e <> key_of element) after ->
  exists errs,
    forEach (visit RegExp Object_prototype st) (before ++ element :: after) acc
      = Normal (errs, true)
    /\ errs !! key_of element = Some (required_message element).
Proof.
  intros Hreq Hfalsy Hproto Hcompile Hafter.
  apply Forall_app in Hcompile as [Hc1 Hc2]. apply Forall_cons in Hc2 as [Hc2 Hc3].
  rewrite forEach_app.
  destruct (forEach_total _ (visit RegExp Object_prototype st)
              (fun s x => visit_total RegExp Object_prototype st s x) before acc Hc1)
    as [acc1 ->].
  simpl.
  destruct (visit_total RegExp Object_prototype st acc1 element Hc2) as [acc2 Hvisit].
  rewrite Hvisit. simpl.
  destruct (visit_required RegExp Object_prototype st acc1 element acc2 Hreq Hfalsy Hvisit)
    as [Hflag Hmsg].
  specialize (Hmsg Hproto).
  clear Hvisit Hc1 Hc2. revert acc2 Hmsg Hflag.
  induction after as [|e after IH]; intros acc2 Hmsg Hflag; simpl.
  - destruct acc2 as [errs flag]; simpl in *. subst flag.
    exists errs. split; [reflexivity | exact Hmsg].
  - apply Forall_cons in Hc3 as [Hc Hc3]. apply Forall_cons in Hafter as [Hk Hafter].
    destruct (visit_total RegExp Object_prototype st acc2 e Hc) as [acc3 Hvisit].
    rewrite Hvisit. simpl.
    apply (IH Hc3 Hafter).
    + rewrite (visit_other_key RegExp Object_prototype st acc2 e acc3 _ Hk Hvisit).
      exact Hmsg.
    + exact (visit_keeps_flag RegExp Object_prototype st acc2 e acc3 Hflag Hvisit).
Qed.

(** X17. A failed submit seen on screen. Let an item of a row be
    required with a falsy value (as [formData[name]] reads, inherited
    members included), its name not be "__proto__", every pattern of the
    rows be accepted by the engine and no later item of the rows use the
    same name. Then the handler shows the "Validation Error" alert, and
    in the state it leaves the item shows its required message under
    the field if it is an input or a password, and no message at all
    otherwise (a required checkbox left unchecked blocks the submit
    without an inline message). *)
Theorem required_error_on_screen (st : State) (net : FetchOutcome)
    (before : list Item) (item : Item) (after : list Item) (key : nat) :
  flat_map row_items layout = (before ++ item :: after)%list ->
  required (base item) = true ->
  truthy (current Object_prototype st (base item)) = false ->
  key_of (base item) <> "__proto__" ->
  Forall (fun i => patterns_compile RegExp (base i) = true) (flat_map row_items layout) ->
  Forall (fun i => key_of (base i) <> key_of (base item)) after ->
  exists st',
    handleSubmit RegExp Object_prototype (Config_of layout) st net =
      Normal (st', [Alert_alert "Validation Error" "Please correct the errors in the form"])
    /\ error_texts (renderElement RegExp Object_prototype layout st' item key) =
         if is_text_field (base item) then [required_message (base item)] else [].
Proof.
  intros Hsplit Hreq Hfalsy Hproto Hcompile Hafter.
  assert (exists errs,
            validation RegExp Object_prototype (Config_of layout) st = Normal (errs, true)
            /\ errs !! key_of (base item) = Some (required_message (base item)))
    as (errs & Hval & Hk).
  { rewrite validation_traversed, traversed_Config_of, Hsplit, map_app. simpl.
    apply forEach_visit_required; [exact Hreq | exact Hfalsy | exact Hproto | |].
    - rewrite Hsplit in Hcompile. rewrite <- (map_cons base), <- map_app.
      apply Forall_map. exact Hcompile.
    - apply Forall_map. exact Hafter. }
  unfold handleSubmit. rewrite Hval. simpl. eexists. split; [reflexivity|].
  rewrite error_texts_renderElement. simpl. rewrite Hk, required_message_nonempty.
  reflexivity.
Qed.

End FormProperties.

(** ** The further properties on sample forms *)

Definition terms : Element :=
  {| type := "checkbox"; name := Some "terms"; label := Some "Terms";
     required := true; validator := None |}.

Definition shown (element : Element) : Item :=
  {| base := element; value := None; help := None |}.

Definition welcome : Item :=
  {| base := {| type := "heading"; name := None; label := None;
                required := false; validator := None |};
     value := Some "Sign up"; help := None |}.

Definition signup : list ItemBlock :=
  [item_block [welcome; shown bio];
   item_row [ {| column_size := 1; items := [shown email; shown terms] |};
              {| column_size := 2; items := [shown send] |} ]].

(** X3 on the contact field: the three rules accept "someone@here" in
    the declared order, hence with the first two swapped. *)
Lemma rule_order_on_contact :
  validateInput literal_RegExp
    (with_rules contact [pattern_rule "@"; length_rule "gt" 2; length_rule "gte" 10])
    (VStr "someone@here") = Normal None.
Proof.
  apply (acceptance_ignores_rule_order literal_RegExp contact
           [length_rule "gt" 2; pattern_rule "@"; length_rule "gte" 10]).
  - apply perm_swap.
  - reflexivity.
Defined.

(** X4 on the bio field: ten characters pass, so twelve do. *)
Lemma longer_bio_accepted :
  validateInput literal_RegExp
    (with_rules bio [length_rule "gte" 10; length_rule "gt" 3]) (VStr "0123456789ab")
  = Normal None.
Proof.
  apply (longer_text_accepted literal_RegExp bio
           [length_rule "gte" 10; length_rule "gt" 3] "0123456789" "0123456789ab").
  - reflexivity.
  - simpl. lia.
  - reflexivity.
Defined.

(** X6 on an empty form with a bio and a required contact: the entry
    under "bio" comes from the bio element. *)
Lemma bio_error_has_a_source :
  exists element,
    element ∈ traversed (form_of [bio; contact; send]) /\ key_of element = "bio"
    /\ ((required element
        = true /\ truthy (get_property standard_prototype (formData (mounted ∅)) "bio") = false
         /\ "Value of Bio field must be at least 10 characters long" = required_message element)
        \/ validateInput literal_RegExp element (validated_value standard_prototype
            (mounted ∅) element) =
           Normal (Some "Value of Bio field must be at least 10 characters long")).
Proof.
  apply (every_error_has_a_source literal_RegExp standard_prototype
      (form_of [bio; contact; send]) (mounted ∅)
           {["bio" := "Value of Bio field must be at least 10 characters long";
             "contact" := "Contact is required"]} true).
  - reflexivity.
  - reflexivity.
Defined.


(** X8 on scenario 2: one alert, one request. *)
Lemma one_alert_on_filled_email :
  (exists title message,
     alerts [submit {["email" := VStr "a@b.com"]};
             Alert_alert "Success" "Form submitted successfully"; Keyboard_dismiss]
     = [Alert_alert title message])
  /\ (requests [submit {["email" := VStr "a@b.com"]};
                Alert_alert "Success" "Form submitted successfully"; Keyboard_dismiss] = []
      /\ alerts [submit {["email" := VStr "a@b.com"]};
                 Alert_alert "Success" "Form submitted successfully"; Keyboard_dismiss]
         = [Alert_alert "Validation Error" "Please correct the errors in the form"]
      /\ formData {| formData := ∅; errors := ∅ |}
         = formData (mounted {["email" := VStr "a@b.com"]})
      \/ requests [submit {["email" := VStr "a@b.com"]};
                   Alert_alert "Success" "Form submitted successfully"; Keyboard_dismiss]
         = [submit (formData (mounted {["email" := VStr "a@b.com"]}))]
         /\ errors {| formData := ∅; errors := ∅ |} = ∅
         /\ (formData {| formData := ∅; errors := ∅ |}
             = formData (mounted {["email" := VStr "a@b.com"]})
             \/ formData {| formData := ∅; errors := ∅ |} = ∅)).
Proof.
  apply (one_alert_per_run literal_RegExp standard_prototype (form_of [email])
           (mounted {["email" := VStr "a@b.com"]}) {| formData := ∅; errors := ∅ |}
           (fulfilled 200)).
  reflexivity.
Defined.

(** X9: typing a contact leaves the error of the bio as it is. *)
Lemma contact_edit_keeps_bio_error :
  ({["bio" := "Value of Bio field must be at least 10 characters long"]}
     : gmap string string) !! "bio" =
  ({["bio" := "Value of Bio field must be at least 10 characters long";
     "contact" := "Contact is required"]} : gmap string string) !! "bio".
Proof.
  apply (edit_changes_only_its_error literal_RegExp standard_prototype
      (form_of [bio; contact; send])
           (mounted ∅) (Some "contact") (VStr "someone@here") _ _ true true "bio").
  - reflexivity.
  - reflexivity.
  - discriminate.
Defined.

(** X10: the pattern "(" does not compile; once the code field holds two
    characters the traversal reaches it and the handler throws. *)
Lemma unclosed_group_aborts_submit :
  literal_RegExp "(" = None
  /\ handleSubmit literal_RegExp standard_prototype (form_of [bio; broken; email])
       (mounted {["bio" := VStr "0123456789"; "code" := VStr "ab"]}) (fulfilled 200) = Throw.
Proof.
  split; [reflexivity|].
  apply (malformed_pattern_aborts_submit literal_RegExp standard_prototype
      (form_of [bio; broken; email])
           (mounted {["bio" := VStr "0123456789"; "code" := VStr "ab"]}) (fulfilled 200)
           [bio] broken [email] [length_rule "gte" 2] "(" []).
  - reflexivity.
  - constructor; [reflexivity | constructor].
  - reflexivity.
  - constructor; [reflexivity | constructor].
  - reflexivity.
Defined.

(** X11 on the bio field, which is not required: left empty it is refused. *)
Lemma empty_bio_refused :
  exists message,
    check literal_RegExp bio (VStr "") (length_rule "gte" 10) = Normal (Some message)
    /\ visit literal_RegExp standard_prototype (mounted ∅) (∅, false) bio =
       Normal (<[key_of bio := message]> (∅ : gmap string string), true).
Proof.
  apply (bounded_field_cannot_stay_empty literal_RegExp standard_prototype (mounted ∅)
      (∅, false) bio
           [] "gte" 10 []).
  - reflexivity.
  - constructor.
  - left. split; [reflexivity | lia].
  - reflexivity.
  - reflexivity.
Defined.


(** X17 on the sign-up form submitted empty, for the required checkbox:
    the submit is blocked and the checkbox shows no message. *)
Lemma unchecked_terms_on_screen :
  exists st',
    handleSubmit literal_RegExp standard_prototype (Config_of signup) (mounted ∅) rejected =
      Normal (st', [Alert_alert "Validation Error" "Please correct the errors in the form"])
    /\ error_texts (renderElement literal_RegExp standard_prototype signup st'
        (shown terms) 1) = [].
Proof.
  apply (required_error_on_screen literal_RegExp standard_prototype signup (mounted ∅)
           rejected [shown email] (shown terms) [shown send] 1).
  - reflexivity.
  - reflexivity.
  - reflexivity.
  - discriminate.
  - repeat (constructor; [reflexivity|]). constructor.
  - constructor; [discriminate | constructor].
Defined.

(** The sign-up form on screen before any input: the bio of the block
    container has its text input, beside the email, the checkbox and the
    button of the row. *)
Example signup_on_screen :
  shown_texts (DynamicForm literal_RegExp standard_prototype signup (mounted ∅))
      = [VStr ""; VStr ""]
  /\ shown_ticks (DynamicForm literal_RegExp standard_prototype signup (mounted ∅)) = [VBool false]
  /\ map key_of (traversed (Config_of signup)) = ["email"; "terms"; "undefined"].
Proof. repeat split; reflexivity. Qed.

(** X18 on the sign-up form: no pattern at all, so a run completes. *)
Lemma signup_run_completes :
  exists st' effects,
    handleSubmit literal_RegExp standard_prototype (Config_of signup)
      (mounted {["email" := VStr "a@b.com"]}) rejected = Normal (st', effects).
Proof.
  apply (handler_completes literal_RegExp standard_prototype (Config_of signup)
           (mounted {["email" := VStr "a@b.com"]}) rejected).
  repeat (constructor; [reflexivity|]). constructor.
Defined.
